(** * RiskTwin: scenario impact calculator, deductible ledger and forecast engine

    A shallow embedding of the numeric core of the RiskTwin platform:

    - the scenario endpoint of the API server ([validateScenarioData],
      [applyScenarioImpact], the [POST /api/scenario] handler);
    - the dashboard's [applyScenario] with its per-state deductible memory
      [stateDeductibleHistory], and the [loadTwin] that ends each call;
    - [MLRiskService.calculateRiskScore];
    - the forecasting helpers of [PredictiveRiskService]
      ([linearRegressionForecast], [exponentialSmoothingForecast],
      [arimaForecast], [ensembleForecast], [calculateTrendDirection]).

    JavaScript numbers are embedded as exact rationals extended with
    [Infinity], [-Infinity] and [NaN].  Division by zero, [NaN] propagation,
    the comparisons with [NaN] and the truthiness of numbers follow the
    language; binary rounding error, overflow and the sign of zero are
    abstracted (a finite result is the exact rational). *)

From Stdlib Require Import QArith Qround Qabs Lqa Lia ZArith List String Ascii Bool Sorted.
From stdpp Require Import gmap strings.

(* ===================================================================== *)
(** * Part I: the embedded program *)
(* ===================================================================== *)

(** ** JavaScript numbers *)

Module JS.

Inductive num : Type :=
| Fin (q : Q)
| PInf
| NInf
| NaN.

Arguments Fin q%_Q.

Definition of_nat (n : nat) : num := Fin (inject_Z (Z.of_nat n)).

Definition Qltb (x y : Q) : bool := negb (Qle_bool y x).
Definition Qzerob (x : Q) : bool := Qeq_bool x 0%Q.

Definition neg (a : num) : num :=
  match a with
  | Fin x => Fin (- x)
  | PInf => NInf
  | NInf => PInf
  | NaN => NaN
  end.

Definition add (a b : num) : num :=
  match a, b with
  | NaN, _ | _, NaN => NaN
  | Fin x, Fin y => Fin (x + y)
  | PInf, NInf | NInf, PInf => NaN
  | PInf, _ | _, PInf => PInf
  | NInf, _ | _, NInf => NInf
  end.

Definition sub (a b : num) : num := add a (neg b).

(** An infinity times a finite number: the sign follows the factor, and
    [Infinity * 0] is [NaN]. *)
Definition scale_inf (inf : num) (y : Q) : num :=
  if Qzerob y then NaN else if Qltb y 0%Q then neg inf else inf.

Definition mul (a b : num) : num :=
  match a, b with
  | NaN, _ | _, NaN => NaN
  | Fin x, Fin y => Fin (x * y)
  | Fin x, (PInf | NInf) => scale_inf b x
  | (PInf | NInf), Fin y => scale_inf a y
  | PInf, PInf | NInf, NInf => PInf
  | PInf, NInf | NInf, PInf => NInf
  end.

Definition div (a b : num) : num :=
  match a, b with
  | NaN, _ | _, NaN => NaN
  | Fin x, Fin y =>
      if Qzerob y
      then (if Qzerob x then NaN else if Qltb x 0%Q then NInf else PInf)
      else Fin (x / y)
  | Fin _, (PInf | NInf) => Fin 0
  | (PInf | NInf), Fin y => if Qltb y 0%Q then neg a else a
  | (PInf | NInf), (PInf | NInf) => NaN
  end.

(** [a < b]; every comparison with [NaN] is false. *)
Definition lt (a b : num) : bool :=
  match a, b with
  | Fin x, Fin y => Qltb x y
  | NInf, (Fin _ | PInf) => true
  | Fin _, PInf => true
  | _, _ => false
  end.

Definition gt (a b : num) : bool := lt b a.

Definition le (a b : num) : bool :=
  match a, b with
  | Fin x, Fin y => Qle_bool x y
  | NInf, (Fin _ | PInf | NInf) => true
  | (Fin _ | PInf), PInf => true
  | _, _ => false
  end.

Definition ge (a b : num) : bool := le b a.

(** [a === b] on numbers. *)
Definition strict_eq (a b : num) : bool :=
  match a, b with
  | Fin x, Fin y => Qeq_bool x y
  | PInf, PInf | NInf, NInf => true
  | _, _ => false
  end.

(** Truthiness of a number: [0] and [NaN] are falsy. *)
Definition truthy (a : num) : bool :=
  match a with
  | Fin x => negb (Qzerob x)
  | PInf | NInf => true
  | NaN => false
  end.

Definition isNaN (a : num) : bool :=
  match a with NaN => true | _ => false end.

(** The integer [n] for which [n / scale] is closest to [q >= 0], the larger
    one on a tie. *)
Definition nearest (scale : positive) (q : Q) : Q :=
  (Qfloor (q * inject_Z (Zpos scale) + (1 # 2)) # scale)%Q.

Definition pow10 (digits : nat) : positive := Pos.pow 10 (Pos.of_nat digits).

(** The number that [q.toFixed(digits)] prints, for [digits >= 1]: the sign is
    split off, magnitudes from [1e21] on are printed in full, smaller ones
    are rounded to [digits] decimals. *)
Definition toFixedQ (digits : nat) (q : Q) : Q :=
  if Qle_bool 1e21%Q (Qabs q) then q
  else if Qltb q 0%Q then (- nearest (pow10 digits) (- q))%Q
  else nearest (pow10 digits) q.

(** [parseFloat(x.toFixed(digits))]; [NaN] and the infinities print as their
    names and parse back. *)
Definition parseFloat_toFixed (digits : nat) (x : num) : num :=
  match x with
  | Fin q => Fin (toFixedQ digits q)
  | _ => x
  end.

(** [isFinite(x)]. *)
Definition isFinite (x : num) : bool :=
  match x with Fin _ => true | _ => false end.

(** A field of a JSON object that holds a number when present. *)
Inductive jsval : Type :=
| Undefined
| Null
| Num (x : num).

Definition truthy_val (v : jsval) : bool :=
  match v with Num x => truthy x | _ => false end.

(** [ToNumber]: [undefined] is [NaN], [null] is [0]. *)
Definition to_number (v : jsval) : num :=
  match v with
  | Undefined => NaN
  | Null => Fin 0
  | Num x => x
  end.

(** [parseFloat(v)]: the argument is printed first, and neither
    ["undefined"] nor ["null"] parses. *)
Definition parseFloat (v : jsval) : num :=
  match v with Num x => x | _ => NaN end.

(** [a || b] on number-valued fields. *)
Definition or_else (a b : jsval) : jsval := if truthy_val a then a else b.

(** What [JSON.stringify] followed by [JSON.parse] leaves of a field:
    a number that is not finite is written as [null]. *)
Definition json_number (v : jsval) : jsval :=
  match v with
  | Num (Fin q) => v
  | Num _ => Null
  | _ => v
  end.

(** The property names every object inherits from [Object.prototype]: read
    as keys of an object literal used as a map they are found although never
    stored.  [own_only k] says that [k] is none of them. *)
Definition inherited_keys : list string :=
  ["constructor"; "hasOwnProperty"; "isPrototypeOf"; "propertyIsEnumerable";
   "toLocaleString"; "toString"; "valueOf"; "__proto__"; "__defineGetter__";
   "__defineSetter__"; "__lookupGetter__"; "__lookupSetter__"]%string.

Definition own_only (k : string) : bool :=
  negb (existsb (String.eqb k) inherited_keys).

(** What [m[k]] reads from an object literal [m]: an own property, a
    property inherited from [Object.prototype] (a function, or the prototype
    object itself under ["__proto__"]), or [undefined]. *)
Inductive property (A : Type) : Type :=
| Own (a : A)
| Inherited
| Missing.

Arguments Own {A} a.
Arguments Inherited {A}.
Arguments Missing {A}.

Definition get {A : Type} (m : gmap string A) (k : string) : property A :=
  match m !! k with
  | Some a => Own a
  | None => if own_only k then Missing else Inherited
  end.

(** [m[k] || dflt] on an object whose own properties are numbers, as the
    number its consumers see.  An inherited property is truthy, so it is what
    the expression yields; the products, quotients, differences and
    comparisons that consume it here convert it with [ToNumber], which gives
    [NaN]. *)
Definition lookup_or (m : gmap string num) (k : string) (dflt : num) : num :=
  match get m k with
  | Own v => if truthy v then v else dflt
  | Inherited => NaN
  | Missing => dflt
  end.

(** Truthiness of [m[k]]: an inherited property is an object. *)
Definition has_truthy (m : gmap string num) (k : string) : bool :=
  match get m k with
  | Own v => truthy v
  | Inherited => true
  | Missing => false
  end.

(** [m[k] = v] on an object literal: the assignment creates or updates an
    own property, except under ["__proto__"], where it reaches the setter of
    [Object.prototype], which ignores a number. *)
Definition set {A : Type} (m : gmap string A) (k : string) (v : A)
  : gmap string A :=
  if String.eqb k "__proto__" then m else <[k := v]> m.

(** The length [Array.from({ length: x }, ...)] takes from [x]: a number of
    entries as it is; a function, an object or [undefined] convert to [NaN],
    which counts as 0. *)
Definition to_length (x : property nat) : nat :=
  match x with
  | Own n => n
  | Inherited | Missing => 0%nat
  end.

(** [s.trim()] on strings of code units below 256: white space and line
    terminators are removed at both ends. *)
Definition is_space (c : ascii) : bool :=
  let n := nat_of_ascii c in
  ((9 <=? n)%nat && (n <=? 13)%nat) || (n =? 32)%nat || (n =? 160)%nat.

Fixpoint trimStart (s : string) : string :=
  match s with
  | String c rest => if is_space c then trimStart rest else s
  | EmptyString => EmptyString
  end.

Fixpoint trimEnd (s : string) : string :=
  match s with
  | String c rest =>
      match trimEnd rest with
      | EmptyString => if is_space c then EmptyString else String c EmptyString
      | kept => String c kept
      end
  | EmptyString => EmptyString
  end.

Definition trim (s : string) : string := trimEnd (trimStart s).

End JS.

(** ** The [validator] package *)

Module Validator.

(** [validator.escape(str)]: the characters [&], the double quote, the single
    quote, [<], [>], [/], the backslash and the backtick are replaced by HTML
    entities. *)
Definition entity (c : ascii) : string :=
  match nat_of_ascii c with
  | 38%nat => "&amp;"
  | 34%nat => "&quot;"
  | 39%nat => "&#x27;"
  | 60%nat => "&lt;"
  | 62%nat => "&gt;"
  | 47%nat => "&#x2F;"
  | 92%nat => "&#x5C;"
  | 96%nat => "&#96;"
  | _ => String c EmptyString
  end.

Fixpoint escape (str : string) : string :=
  match str with
  | String c rest => String.append (entity c) (escape rest)
  | EmptyString => EmptyString
  end.

End Validator.

Declare Scope js_scope.
Delimit Scope js_scope with js.
Bind Scope js_scope with JS.num.
Infix "+" := JS.add : js_scope.
Infix "-" := JS.sub : js_scope.
Infix "*" := JS.mul : js_scope.
Infix "/" := JS.div : js_scope.
Notation "- x" := (JS.neg x) : js_scope.
Infix "<?" := JS.lt : js_scope.
Infix ">?" := JS.gt : js_scope.
Infix "<=?" := JS.le : js_scope.
Infix ">=?" := JS.ge : js_scope.
Infix "===" := JS.strict_eq (at level 70) : js_scope.

Abbreviation num := JS.num.
Abbreviation Fin := JS.Fin.
Abbreviation PInf := JS.PInf.
Abbreviation NInf := JS.NInf.
Abbreviation NaN := JS.NaN.
Abbreviation jsval := JS.jsval.
Abbreviation Undefined := JS.Undefined.
Abbreviation Null := JS.Null.
Abbreviation Num := JS.Num.

Module Math.

(** [Math.max(a, b)] and [Math.min(a, b)]: [NaN] if either argument is. *)
Definition max (a b : num) : num :=
  match a, b with
  | NaN, _ | _, NaN => NaN
  | _, _ => if (a <? b)%js then b else a
  end.

Definition min (a b : num) : num :=
  match a, b with
  | NaN, _ | _, NaN => NaN
  | _, _ => if (b <? a)%js then b else a
  end.

(** [Math.max(...xs)]: [-Infinity] on the empty array. *)
Definition max_list (xs : list num) : num := fold_left max xs NInf.

End Math.

(** ** The API server: [POST /api/scenario] *)

Module Server.

Local Open Scope js_scope.

(** A row of [get_twin]: the customer joined with its risk twin. *)
Record twin : Type := mkTwin {
  name : string;
  state : string;
  base_risk_score : num;
  next12m_claim_prob : num;
  next12m_expected_loss : num
}.

(** [change_json].  The free-text [reason] of a no-change scenario is not
    kept: nothing reads it back. *)
Record change : Type := mkChange {
  no_change : bool;
  move_state : option string;
  increase_deductible : jsval;
  decrease_deductible : jsval;
  restore_deductible : jsval;
  before_deductible : jsval;
  final_deductible : jsval
}.

Definition empty_change : change :=
  mkChange false None Undefined Undefined Undefined Undefined Undefined.

(** Truthiness of a string-valued field: absent and empty are falsy. *)
Definition truthy_str (s : option string) : bool :=
  match s with
  | Some s => negb (String.eqb s "")
  | None => false
  end.

Definition stateRiskFactors : gmap string num :=
  list_to_map
    [("FL", Fin 1.15); ("CA", Fin 1.12); ("TX", Fin 1.08); ("NY", Fin 1.10);
     ("IL", Fin 1.05); ("PA", Fin 1.02); ("OH", Fin 0.98); ("GA", Fin 1.06);
     ("NC", Fin 1.04); ("MI", Fin 1.01); ("NJ", Fin 1.09); ("VA", Fin 1.03);
     ("WA", Fin 1.00); ("AZ", Fin 1.07); ("MA", Fin 1.11); ("TN", Fin 0.99);
     ("IN", Fin 0.97); ("MO", Fin 0.96); ("MD", Fin 1.08); ("WI", Fin 0.95)].

(** [newStateFactor / currentStateFactor]. *)
Definition stateAdjustment (move_to current : string) : num :=
  let newStateFactor := JS.lookup_or stateRiskFactors move_to (Fin 1.0) in
  let currentStateFactor := JS.lookup_or stateRiskFactors current (Fin 1.0) in
  newStateFactor / currentStateFactor.

(** [changeJson.increase_deductible || -changeJson.decrease_deductible]. *)
Definition deductibleChange (changeJson : change) : num :=
  if JS.truthy_val (increase_deductible changeJson)
  then JS.to_number (increase_deductible changeJson)
  else - JS.to_number (decrease_deductible changeJson).

(** [1 - deductibleChange * 0.0001]. *)
Definition deductibleImpactFactor (changeJson : change) : num :=
  Fin 1 - deductibleChange changeJson * Fin 0.0001.

(** The three values of [applyScenarioImpact] just before the bounds are
    enforced. *)
Definition scaledValues (customer : twin) (changeJson : change)
  : num * num * num :=
  let newRiskScore := base_risk_score customer in
  let newClaimProb := next12m_claim_prob customer in
  let newExpectedLoss := next12m_expected_loss customer in
  let '(newRiskScore, newClaimProb, newExpectedLoss) :=
    if truthy_str (move_state changeJson) then
      let target := default ""%string (move_state changeJson) in
      (newRiskScore * stateAdjustment target (state customer),
       newClaimProb * stateAdjustment target (state customer),
       newExpectedLoss * stateAdjustment target (state customer))
    else (newRiskScore, newClaimProb, newExpectedLoss) in
  if JS.truthy_val (JS.or_else (increase_deductible changeJson)
                               (decrease_deductible changeJson))
  then (newRiskScore * deductibleImpactFactor changeJson,
        newClaimProb * deductibleImpactFactor changeJson,
        newExpectedLoss * deductibleImpactFactor changeJson)
  else (newRiskScore, newClaimProb, newExpectedLoss).

(** The row of the customer after [applyScenarioImpact]: the state written by
    [UPDATE customers] and the three values written by [UPDATE risk_twins]. *)
Definition impactedTwin (customer : twin) (changeJson : change) : twin :=
  let '(newRiskScore, newClaimProb, newExpectedLoss) :=
    scaledValues customer changeJson in
  let newRiskScore := Math.max (Fin 0) (Math.min (Fin 100) newRiskScore) in
  let newClaimProb := Math.max (Fin 0) (Math.min (Fin 1) newClaimProb) in
  let newExpectedLoss := Math.max (Fin 0) newExpectedLoss in
  {| name := name customer;
     state := if truthy_str (move_state changeJson)
              then default ""%string (move_state changeJson)
              else state customer;
     base_risk_score := newRiskScore;
     next12m_claim_prob := newClaimProb;
     next12m_expected_loss := newExpectedLoss |}.

Record scenario_row : Type := mkScenario {
  scenario_customer : Z;
  scenario_name : string;
  scenario_change : change
}.

(** The tables the endpoint writes.  A timeline event is kept as the customer
    it belongs to; its title and details are display text. *)
Record database : Type := mkDatabase {
  twins : gmap Z twin;
  scenarios : list scenario_row;
  timeline_events : list Z
}.

(** [applyScenarioImpact(customerId, changeJson)]; [None] when it throws
    ['Customer not found']. *)
Definition applyScenarioImpact (customerId : Z) (changeJson : change)
    (db : database) : option database :=
  match twins db !! customerId with
  | None => None
  | Some customer =>
      Some {| twins := <[customerId := impactedTwin customer changeJson]> (twins db);
              scenarios := scenarios db;
              timeline_events := timeline_events db |}
  end.

(** [/^[A-Z]{2}$/.test(stateCode)]. *)
Definition is_upper (c : ascii) : bool :=
  (65 <=? nat_of_ascii c)%nat && (nat_of_ascii c <=? 90)%nat.

Definition validateStateCode (stateCode : string) : bool :=
  match stateCode with
  | String a (String b EmptyString) => is_upper a && is_upper b
  | _ => false
  end.

(** The body of the request.  [customer_id] is an integer when present. *)
Record request : Type := mkRequest {
  req_customer_id : option Z;
  req_name : option string;
  req_change_json : option change
}.

Record validatedScenario : Type := mkValidated {
  customer_id : Z;
  scenario_title : string;
  change_json : change
}.

(** [validateScenarioData]: the error code of the 400 response, or the
    validated scenario handed to the next handler, whose name is the
    received one trimmed and escaped. *)
Definition validateScenarioData (body : request) : string + validatedScenario :=
  match req_customer_id body with
  | None => inl "MISSING_CUSTOMER_ID"%string
  | Some customer_id =>
  if (customer_id =? 0)%Z then inl "MISSING_CUSTOMER_ID"%string
  else if (customer_id <=? 0)%Z then inl "INVALID_CUSTOMER_ID"%string
  else
  match req_name body with
  | None => inl "INVALID_SCENARIO_NAME"%string
  | Some name =>
  if String.eqb name "" then inl "INVALID_SCENARIO_NAME"%string
  else if (255 <? String.length name)%nat then inl "SCENARIO_NAME_TOO_LONG"%string
  else
  match req_change_json body with
  | None => inl "INVALID_CHANGE_JSON"%string
  | Some change_json =>
  if truthy_str (move_state change_json)
     && negb (validateStateCode (default ""%string (move_state change_json)))
  then inl "INVALID_STATE_CODE"%string
  else
  let invalid_deductible :=
    match increase_deductible change_json with
    | Undefined => false
    | v =>
        let deductible := JS.parseFloat v in
        JS.isNaN deductible || (deductible <? Fin 0) || (deductible >? Fin 10000)
    end in
  if invalid_deductible then inl "INVALID_DEDUCTIBLE"%string
  else
  let sanitizedName := Validator.escape (JS.trim name) in
  inr (mkValidated customer_id sanitizedName change_json)
  end end end.

Inductive response : Type :=
| BadRequest (code : string)
| Created (scenario : scenario_row)
| ServerError (code : string).

(** The handler behind the validation middleware. *)
Definition scenarioHandler (v : validatedScenario) (db : database)
  : response * database :=
  let scenario := mkScenario (customer_id v) (scenario_title v) (change_json v) in
  let db := {| twins := twins db;
               scenarios := scenarios db ++ [scenario];
               timeline_events := timeline_events db |} in
  let applied :=
    if negb (no_change (change_json v))
    then applyScenarioImpact (customer_id v) (change_json v) db
    else Some db in
  match applied with
  | None => (ServerError "SCENARIO_CREATION_FAILED", db)
  | Some db =>
      (Created scenario,
       {| twins := twins db;
          scenarios := scenarios db;
          timeline_events := timeline_events db ++ [customer_id v] |})
  end.

(** [app.post('/api/scenario', validateScenarioData, handler)]. *)
Definition postScenario (body : request) (db : database) : response * database :=
  match validateScenarioData body with
  | inl code => (BadRequest code, db)
  | inr v => scenarioHandler v db
  end.

(** [validateCohortParams]: the error code, or the validated parameters with
    their defaults. *)
Definition validTypes : list string :=
  ["risk_based"; "geographic"; "policy_vintage"; "claim_behavior"]%string.

Definition validTimeFrames : list string := ["30d"; "90d"; "180d"; "1y"]%string.

Definition validateCohortParams (type timeFrame : option string)
  : string + (string * string) :=
  if truthy_str type
     && negb (existsb (String.eqb (default ""%string type)) validTypes)
  then inl "INVALID_ANALYSIS_TYPE"%string
  else if truthy_str timeFrame
          && negb (existsb (String.eqb (default ""%string timeFrame))
                           validTimeFrames)
  then inl "INVALID_TIME_FRAME"%string
  else inr (if truthy_str type then default ""%string type
            else "risk_based"%string,
            if truthy_str timeFrame then default ""%string timeFrame
            else "90d"%string).

End Server.

(** ** The dashboard: deductible memory and [applyScenario] *)

Module Dashboard.

Import Server.
Local Open Scope js_scope.

(** [initializeDeductibleHistory(twin)], run by [loadTwin]: the history of
    the loaded customer. *)
Definition initializeDeductibleHistory (twin : Server.twin) : gmap string num :=
  let currentState := state twin in
  let baselineDeductible := Fin 1500 in
  if String.eqb (name twin) "Carlos Ramirez"
  then list_to_map [("TX"%string, Fin 1500); ("LA"%string, Fin 2500);
                    ("WA"%string, Fin 1750)]
  else JS.set ∅ currentState baselineDeductible.

(** What the scenario logic leaves behind: the [change] that is posted, the
    updated [stateDeductibleHistory] and the [isNoChange] flag. *)
Record outcome : Type := mkOutcome {
  posted : change;
  history : gmap string num;
  isNoChange : bool
}.

Definition with_no_change (c : change) : change :=
  mkChange true (move_state c) (increase_deductible c) (decrease_deductible c)
           (restore_deductible c) (before_deductible c) (final_deductible c).

Definition with_move_state (c : change) (s : string) : change :=
  mkChange (no_change c) (Some s) (increase_deductible c) (decrease_deductible c)
           (restore_deductible c) (before_deductible c) (final_deductible c).

Definition with_restore_deductible (c : change) (v : jsval) : change :=
  mkChange (no_change c) (move_state c) (increase_deductible c)
           (decrease_deductible c) v (before_deductible c) (final_deductible c).

(** The block the source repeats in its three deductible branches: read the
    current deductible under [from], record the signed change, store the new
    deductible under [to] and remember both amounts for the timeline.  (Under
    a state named like an inherited property the source would concatenate
    strings where this adds numbers.) *)
Definition adjustDeductible (stateDeductibleHistory : gmap string num)
    (change : Server.change) (from to : string) (d : num) (action : string)
  : outcome :=
  let currentDeductible := JS.lookup_or stateDeductibleHistory from (Fin 0) in
  let increase := String.eqb action "increase" in
  let newDeductible :=
    if increase then currentDeductible + d
    else Math.max (Fin 0) (currentDeductible - d) in
  {| posted :=
       mkChange (no_change change) (move_state change)
         (if increase then Num d else increase_deductible change)
         (if increase then decrease_deductible change else Num d)
         (restore_deductible change)
         (Num currentDeductible) (Num newDeductible);
     history := JS.set stateDeductibleHistory to newDeductible;
     isNoChange := false |}.

(** The scenario logic of [applyScenario()], from the form fields [s] (the
    trimmed state), [d] (the deductible amount) and [action], up to the
    request: the first part of [apply] below. *)
Definition applyScenario (stateDeductibleHistory : gmap string num)
    (currentTwin : twin) (s : string) (d : num) (action : string) : outcome :=
  let change := empty_change in
  if negb (String.eqb s "") then
    let currentState := state currentTwin in
    if String.eqb s currentState then
      if JS.has_truthy stateDeductibleHistory s && negb (JS.truthy d) then
        mkOutcome (with_no_change change) stateDeductibleHistory true
      else if d >? Fin 0 then
        adjustDeductible stateDeductibleHistory change s s d action
      else mkOutcome change stateDeductibleHistory false
    else
      let change := with_move_state change s in
      if JS.has_truthy stateDeductibleHistory s && (d === Fin 0) then
        mkOutcome
          (with_restore_deductible change
             (from_option Num Undefined (stateDeductibleHistory !! s)))
          stateDeductibleHistory false
      else if d >? Fin 0 then
        adjustDeductible stateDeductibleHistory change (state currentTwin) s
                         d action
      else
        let currentDeductible :=
          JS.lookup_or stateDeductibleHistory (state currentTwin) (Fin 0) in
        mkOutcome change (JS.set stateDeductibleHistory s currentDeductible) false
  else if d >? Fin 0 then
    let currentState :=
      if String.eqb (state currentTwin) "" then "unknown"%string
      else state currentTwin in
    adjustDeductible stateDeductibleHistory change currentState currentState
                     d action
  else mkOutcome (with_no_change change) stateDeductibleHistory true.

(** The body of the request as the server parses it. *)
Definition wire (c : change) : change :=
  mkChange (no_change c) (move_state c)
    (JS.json_number (increase_deductible c))
    (JS.json_number (decrease_deductible c))
    (JS.json_number (restore_deductible c))
    (JS.json_number (before_deductible c))
    (JS.json_number (final_deductible c)).

(** [loadTwin(id)]: the twin that [GET /api/twin/id] returns becomes
    [currentTwin] and [initializeDeductibleHistory] replaces the ledger.  The
    twin is taken as the row of the database (the reply carries its three
    values through [parseFloat] and JSON; the scenario logic reads the name
    and the state).  For an unknown customer the reply is the error object of
    the 404 response, which has neither name nor state: the ledger gets 1500
    under the key ["undefined"]. *)
Definition loadTwin (db : database) (id : Z)
  : option twin * gmap string num :=
  match twins db !! id with
  | Some newTwin => (Some newTwin, initializeDeductibleHistory newTwin)
  | None => (None, JS.set ∅ "undefined"%string (Fin 1500))
  end.

(** One call of [applyScenario()], dashboard and server together: the change
    that was posted, the reply, the tables afterwards, the ledger when the
    request was sent, and what the concluding [loadTwin] leaves as
    [currentTwin] and as ledger. *)
Record application : Type := mkApplication {
  sent : change;
  reply : response;
  db_after : database;
  ledger_at_request : gmap string num;
  twin_after : option twin;
  ledger_after : gmap string num;
  is_no_op : bool
}.

(** [apply]: the scenario logic of the dashboard on the loaded customer, the
    request to [POST /api/scenario], and the reload of the twin that follows
    whatever the reply was.  [currentTwin] is the row the previous [loadTwin]
    fetched, the row of [currentId] in [db]; [scenarioName] is the display
    name the dashboard builds by string interpolation.  [None] is the early
    return when no customer is loaded. *)
Definition apply (db : database) (stateDeductibleHistory : gmap string num)
    (currentId : Z) (s : string) (d : num) (action : string)
    (scenarioName : string) : option application :=
  match (if (currentId =? 0)%Z then None else twins db !! currentId) with
  | None => None
  | Some currentTwin =>
      let out := applyScenario stateDeductibleHistory currentTwin s d action in
      let body := mkRequest (Some currentId) (Some scenarioName)
                            (Some (wire (posted out))) in
      let '(reply, db') := postScenario body db in
      let '(newTwin, reloaded) := loadTwin db' currentId in
      Some (mkApplication (posted out) reply db' (history out) newTwin reloaded
                          (isNoChange out))
  end.

End Dashboard.

(** ** [MLRiskService.calculateRiskScore] *)

Module MLRiskService.

Local Open Scope js_scope.

Record customerData : Type := mkCustomerData {
  base_risk_score : jsval;
  state : string
}.

(** The fields of [externalFactors] that the calculation reads. *)
Record externalFactors : Type := mkExternalFactors {
  severe_weather_probability : num;
  hurricane_season : bool;
  unemployment_rate : num;
  accident_rate_increase : num;
  claims_frequency_trend : num
}.

(** The clock read by [getTemporalAdjustment] and the draw of
    [Math.random()] behind the confidence. *)
Record environment : Type := mkEnvironment {
  hour : Z;
  dayOfWeek : Z;
  random : num
}.

Record adjustments : Type := mkAdjustments {
  weather : num;
  economic : num;
  traffic : num;
  market : num;
  temporal : num
}.

Record riskCalculation : Type := mkRiskCalculation {
  original_score : num;
  new_score : num;
  adjustment : num;
  factors : adjustments;
  confidence : num
}.

Definition getTemporalAdjustment (env : environment) : num :=
  let adjustment := Fin 0 in
  let adjustment :=
    if (((7 <=? hour env) && (hour env <=? 9))
        || ((17 <=? hour env) && (hour env <=? 19)))%Z
    then adjustment + Fin 1.5 else adjustment in
  let adjustment :=
    if ((dayOfWeek env =? 0) || (dayOfWeek env =? 6))%Z
    then adjustment + Fin 1 else adjustment in
  let adjustment :=
    if ((22 <=? hour env) || (hour env <=? 5))%Z
    then adjustment + Fin 2 else adjustment in
  adjustment.

Definition hurricane_states : list string :=
  ["FL"; "TX"; "LA"; "NC"; "SC"]%string.

Definition includes (xs : list string) (x : string) : bool :=
  existsb (String.eqb x) xs.

Definition calculateAdjustments (customer : customerData)
    (ext : externalFactors) (env : environment) : adjustments :=
  let weather := Fin 0 in
  let weather :=
    if severe_weather_probability ext >? Fin 0.2
    then weather + severe_weather_probability ext * Fin 10 else weather in
  let weather :=
    if hurricane_season ext && includes hurricane_states (state customer)
    then weather + Fin 3 else weather in
  let economic :=
    if unemployment_rate ext >? Fin 0.06
    then Fin 0 + (unemployment_rate ext - Fin 0.06) * Fin 50 else Fin 0 in
  let traffic := Fin 0 + accident_rate_increase ext * Fin 20 in
  let market := Fin 0 + claims_frequency_trend ext * Fin 15 in
  let temporal := Fin 0 + getTemporalAdjustment env in
  mkAdjustments weather economic traffic market temporal.

(** [Object.values(adjustments).reduce((sum, adj) => sum + adj, 0)]. *)
Definition totalAdjustment (a : adjustments) : num :=
  fold_left JS.add [weather a; economic a; traffic a; market a; temporal a]
            (Fin 0).

Definition calculateRiskScore (customer : customerData)
    (ext : externalFactors) (env : environment) : riskCalculation :=
  let baseScore := JS.parseFloat (base_risk_score customer) in
  let adjustments := calculateAdjustments customer ext env in
  let totalAdjustment := totalAdjustment adjustments in
  let smoothedAdjustment := totalAdjustment * Fin 0.7 in
  let newScore :=
    Math.max (Fin 0) (Math.min (Fin 100) (baseScore + smoothedAdjustment)) in
  {| original_score := baseScore;
     new_score := JS.parseFloat_toFixed 1 newScore;
     adjustment := JS.parseFloat_toFixed 1 smoothedAdjustment;
     factors := adjustments;
     confidence := Fin 0.85 + random env * Fin 0.1 |}.

(** [getStateUnemployment(state)]: [stateRates[state] || 0.040]. *)
Definition stateRates : gmap string num :=
  list_to_map
    [("CA", Fin 0.047); ("TX", Fin 0.037); ("FL", Fin 0.041); ("NY", Fin 0.045);
     ("PA", Fin 0.039); ("IL", Fin 0.043); ("OH", Fin 0.042); ("GA", Fin 0.034);
     ("NC", Fin 0.038); ("MI", Fin 0.044); ("NJ", Fin 0.046); ("VA", Fin 0.035);
     ("WA", Fin 0.041); ("AZ", Fin 0.036); ("MA", Fin 0.040); ("TN", Fin 0.033)].

Definition getStateUnemployment (state : string) : num :=
  JS.lookup_or stateRates state (Fin 0.040).

(** [isHurricaneSeason()] in the month [month] (1 to 12). *)
Definition isHurricaneSeason (month : Z) : bool :=
  ((6 <=? month) && (month <=? 11))%Z.

(** The draws of [Math.random()] behind the three random factors that the
    calculation reads. *)
Record draws : Type := mkDraws {
  weather_draw : num;
  traffic_draw : num;
  market_draw : num
}.

(** [getExternalFactors(customerState)], in the month [month]. *)
Definition getExternalFactors (customerState : string) (month : Z)
    (r : draws) : externalFactors :=
  {| severe_weather_probability := weather_draw r * Fin 0.3;
     hurricane_season := isHurricaneSeason month;
     unemployment_rate := getStateUnemployment customerState;
     accident_rate_increase := traffic_draw r * Fin 0.1;
     claims_frequency_trend := (market_draw r - Fin 0.5) * Fin 0.2 |}.

(** The risk calculation of [recalculateRisk] for a customer row. *)
Definition recalculateRisk (customer : customerData) (month : Z) (r : draws)
    (env : environment) : riskCalculation :=
  calculateRiskScore customer (getExternalFactors (state customer) month r) env.

End MLRiskService.

(** ** The forecasting helpers of [PredictiveRiskService] *)

Module PredictiveRiskService.

Local Open Scope js_scope.

(** A row of the historical data, with the two fields the models read. *)
Record point : Type := mkPoint {
  days_from_start : num;
  risk_score_at_time : num
}.

(** A prediction; [period] is the month number of ["Month n"]. *)
Record prediction : Type := mkPrediction {
  period : nat;
  predicted_risk : num;
  confidence : num
}.

(** [calculateDaysFromStart(date)], for the date whose time value is [date]
    milliseconds since the epoch: the whole days since 2024-01-01 (UTC). *)
Definition calculateDaysFromStart (date : Z) : num :=
  Fin (inject_Z ((date - 1704067200000) / (1000 * 60 * 60 * 24))).

(** The mapping of [getHistoricalRiskData] over the rows of its query, each
    with the time value of [applied_at] and the score. *)
Definition getHistoricalRiskData (rows : list (Z * num)) : list point :=
  map (fun row => {| days_from_start := calculateDaysFromStart (fst row);
                     risk_score_at_time := snd row |}) rows.

(** [Array.from({ length: timeSteps }, (_, i) => f(i))]. *)
Definition array_from {A : Type} (timeSteps : nat) (f : nat -> A) : list A :=
  map f (seq 0 timeSteps).

(** [data.reduce((sum, d) => sum + g(d), 0)]. *)
Definition reduce_sum (g : point -> num) (data : list point) : num :=
  fold_left (fun sum d => sum + g d) data (Fin 0).

Definition calculateLinearRegression (data : list point) : num * num :=
  let n := JS.of_nat (length data) in
  let sumX := reduce_sum days_from_start data in
  let sumY := reduce_sum risk_score_at_time data in
  let sumXY :=
    reduce_sum (fun d => days_from_start d * risk_score_at_time d) data in
  let sumXX :=
    reduce_sum (fun d => days_from_start d * days_from_start d) data in
  let slope := (n * sumXY - sumX * sumY) / (n * sumXX - sumX * sumX) in
  let intercept := (sumY - slope * sumX) / n in
  (slope, intercept).

Definition generateStaticForecast (currentRisk : num) (timeSteps : nat)
  : list prediction :=
  array_from timeSteps (fun i =>
    {| period := i + 1;
       predicted_risk := currentRisk;
       confidence := Math.max (Fin 0.3) (Fin 0.8 - JS.of_nat i * Fin 0.05) |}).

Definition linearRegressionForecast (historicalData : list point)
    (currentRisk : num) (timeSteps : nat) : list prediction :=
  if (length historicalData <? 2)%nat then
    generateStaticForecast currentRisk timeSteps
  else
    let '(slope, intercept) := calculateLinearRegression historicalData in
    let lastTimestamp := Math.max_list (map days_from_start historicalData) in
    array_from timeSteps (fun i =>
      let futureTime := lastTimestamp + (JS.of_nat i + Fin 1) * Fin 30 in
      let predictedRisk :=
        Math.max (Fin 0) (Math.min (Fin 100) (slope * futureTime + intercept)) in
      {| period := i + 1;
         predicted_risk := JS.parseFloat_toFixed 1 predictedRisk;
         confidence := Math.max (Fin 0.3) (Fin 0.9 - JS.of_nat i * Fin 0.1) |}).

Definition exponentialSmoothingForecast (historicalData : list point)
    (currentRisk : num) (timeSteps : nat) : list prediction :=
  let alpha := Fin 0.3 in
  let smoothedValue :=
    fold_left (fun smoothedValue point =>
                 alpha * risk_score_at_time point
                 + (Fin 1 - alpha) * smoothedValue)
              historicalData currentRisk in
  array_from timeSteps (fun i =>
    {| period := i + 1;
       predicted_risk := JS.parseFloat_toFixed 1 smoothedValue;
       confidence := Math.max (Fin 0.4) (Fin 0.85 - JS.of_nat i * Fin 0.08) |}).

(** [historicalData.slice(1).map((point, i) => point.risk_score_at_time
    - historicalData[i].risk_score_at_time)]. *)
Fixpoint differences (historicalData : list point) : list num :=
  match historicalData with
  | previous :: (point :: _) as rest =>
      (risk_score_at_time point - risk_score_at_time previous)
      :: differences rest
  | _ => []
  end.

Definition arimaForecast (historicalData : list point)
    (currentRisk : num) (timeSteps : nat) : list prediction :=
  if (length historicalData <? 3)%nat then
    exponentialSmoothingForecast historicalData currentRisk timeSteps
  else
    let differences := differences historicalData in
    let avgDifference :=
      fold_left JS.add differences (Fin 0) / JS.of_nat (length differences) in
    array_from timeSteps (fun i =>
      let predictedRisk :=
        Math.max (Fin 0)
          (Math.min (Fin 100)
             (currentRisk + avgDifference * (JS.of_nat i + Fin 1))) in
      {| period := i + 1;
         predicted_risk := JS.parseFloat_toFixed 1 predictedRisk;
         confidence := Math.max (Fin 0.5) (Fin 0.9 - JS.of_nat i * Fin 0.05) |}).

(** [preds[i]]; the three arrays have [timeSteps] entries, so the index is
    always in range where the ensemble reads it. *)
Definition at_index (preds : list prediction) (i : nat) : prediction :=
  nth i preds (mkPrediction 0 NaN NaN).

Definition ensembleForecast (historicalData : list point)
    (currentRisk : num) (timeSteps : nat) : list prediction :=
  let linearPreds := linearRegressionForecast historicalData currentRisk timeSteps in
  let expPreds := exponentialSmoothingForecast historicalData currentRisk timeSteps in
  let arimaPreds := arimaForecast historicalData currentRisk timeSteps in
  array_from timeSteps (fun i =>
    let weightedRisk :=
      predicted_risk (at_index linearPreds i) * Fin 0.3
      + predicted_risk (at_index expPreds i) * Fin 0.3
      + predicted_risk (at_index arimaPreds i) * Fin 0.4 in
    let weightedConfidence :=
      confidence (at_index linearPreds i) * Fin 0.3
      + confidence (at_index expPreds i) * Fin 0.3
      + confidence (at_index arimaPreds i) * Fin 0.4 in
    {| period := i + 1;
       predicted_risk := JS.parseFloat_toFixed 1 weightedRisk;
       confidence := JS.parseFloat_toFixed 2 weightedConfidence |}).

Definition calculateTrendDirection (predictions : list prediction) : string :=
  if (length predictions <? 2)%nat then "stable"
  else
    let firstRisk := predicted_risk (at_index predictions 0) in
    let lastRisk :=
      predicted_risk (at_index predictions (length predictions - 1)) in
    let change := ((lastRisk - firstRisk) / firstRisk) * Fin 100 in
    if change >? Fin 5 then "increasing"
    else if change <? - Fin 5 then "decreasing"
    else "stable".

(** [horizonMap[horizon] || 12]: an inherited property is truthy and is
    returned as it is. *)
Definition horizonMap : gmap string nat :=
  list_to_map [("3m", 3%nat); ("6m", 6%nat); ("12m", 12%nat); ("24m", 24%nat)].

Definition parseHorizon (horizon : string) : JS.property nat :=
  match JS.get horizonMap horizon with
  | JS.Own (S n) => JS.Own (S n)
  | JS.Own 0%nat | JS.Missing => JS.Own 12%nat
  | JS.Inherited => JS.Inherited
  end.

Definition riskToClaimProbability (riskScore : num) : num :=
  Math.min (Fin 0.95) (Math.max (Fin 0.01) (riskScore / Fin 100 * Fin 0.8)).

(** [this.models]: the accuracy and the confidence threshold of each model. *)
Record model : Type := mkModel {
  model_name : string;
  accuracy : num;
  confidence_threshold : num
}.

Definition models : gmap string model :=
  list_to_map
    [("linear_regression", mkModel "Linear Regression" (Fin 0.75) (Fin 0.6));
     ("exponential_smoothing",
      mkModel "Exponential Smoothing" (Fin 0.82) (Fin 0.7));
     ("arima", mkModel "ARIMA Model" (Fin 0.88) (Fin 0.8));
     ("ensemble", mkModel "Ensemble Prediction" (Fin 0.91) (Fin 0.85))].

Record interval : Type := mkInterval {
  interval_period : nat;
  lower_bound : num;
  upper_bound : num
}.

(** [calculateConfidenceIntervals]; [None] is the [TypeError] of reading
    [confidence_threshold] from [undefined], for a model type that
    [this.models] lacks.  An inherited property has no
    [confidence_threshold]: the base confidence is then [undefined], which
    the subtraction converts to [NaN]. *)
Definition calculateConfidenceIntervals (predictions : list prediction)
    (modelType : string) : option (list interval) :=
  let intervals baseConfidence :=
    map (fun pred =>
           {| interval_period := period pred;
              lower_bound :=
                predicted_risk pred
                * (Fin 1 - (Fin 1 - baseConfidence) * Fin 0.5);
              upper_bound :=
                predicted_risk pred
                * (Fin 1 + (Fin 1 - baseConfidence) * Fin 0.5) |})
        predictions in
  match JS.get models modelType with
  | JS.Missing => None
  | JS.Own m => Some (intervals (confidence_threshold m))
  | JS.Inherited => Some (intervals (JS.to_number Undefined))
  end.

(** The result of [predictRiskTrend] without its [volatility_index], which
    is a square root. *)
Record riskTrend : Type := mkRiskTrend {
  current_risk_score : num;
  prediction_points : list prediction;
  trend_direction : string;
  confidence_intervals : list interval
}.

(** [predictRiskTrend], given the current risk score read from the
    database; [None] when it throws.  The forecasts use [timeSteps] only as
    the length of the array they build. *)
Definition predictRiskTrend (currentRisk : num) (historicalData : list point)
    (horizon modelType : string) : option riskTrend :=
  let timeSteps := JS.to_length (parseHorizon horizon) in
  let predictions :=
    if String.eqb modelType "linear_regression" then
      linearRegressionForecast historicalData currentRisk timeSteps
    else if String.eqb modelType "exponential_smoothing" then
      exponentialSmoothingForecast historicalData currentRisk timeSteps
    else if String.eqb modelType "arima" then
      arimaForecast historicalData currentRisk timeSteps
    else if String.eqb modelType "ensemble" then
      ensembleForecast historicalData currentRisk timeSteps
    else linearRegressionForecast historicalData currentRisk timeSteps in
  match calculateConfidenceIntervals predictions modelType with
  | None => None
  | Some intervals =>
      Some {| current_risk_score := currentRisk;
              prediction_points := predictions;
              trend_direction := calculateTrendDirection predictions;
              confidence_intervals := intervals |}
  end.

(** The three scenarios of [generateScenarioPredictions] and the adjustment
    each applies to a base prediction. *)
Record scenario : Type := mkScenarioCase {
  scenario_label : string;
  probability : num;
  risk_adjustment : num
}.

Definition scenarios : list scenario :=
  [mkScenarioCase "Best Case Scenario" (Fin 0.15) (Fin (-0.20));
   mkScenarioCase "Most Likely Scenario" (Fin 0.70) (Fin 0.00);
   mkScenarioCase "Worst Case Scenario" (Fin 0.15) (Fin 0.35)].

Definition adjustedPredictions (sc : scenario) (basePredictions : list prediction)
  : list prediction :=
  map (fun point =>
         {| period := period point;
            predicted_risk :=
              Math.max (Fin 0)
                (Math.min (Fin 100)
                   (predicted_risk point * (Fin 1 + risk_adjustment sc)));
            confidence := confidence point * probability sc |})
      basePredictions.

Definition calculateROI (savings costs : num) : num :=
  if costs === Fin 0 then (if savings >? Fin 0 then PInf else Fin 0)
  else ((savings - costs) / costs) * Fin 100.

End PredictiveRiskService.

(** ** [PortfolioAnalyticsService]: risk tiers *)

Module PortfolioAnalyticsService.

Local Open Scope js_scope.

Record tier : Type := mkTier {
  tier_min : num;
  tier_max : num
}.

Definition riskTiers : gmap string tier :=
  list_to_map
    [("LOW", mkTier (Fin 0) (Fin 40)); ("MEDIUM", mkTier (Fin 40) (Fin 70));
     ("HIGH", mkTier (Fin 70) (Fin 85));
     ("CRITICAL", mkTier (Fin 85) (Fin 100))].

Definition getRiskLevel (score : num) : string :=
  if score >=? Fin 85 then "CRITICAL"
  else if score >=? Fin 70 then "HIGH"
  else if score >=? Fin 40 then "MEDIUM"
  else "LOW".

Definition getRiskTier (score : num) : string := getRiskLevel score.

End PortfolioAnalyticsService.

(** ** Vocabulary of the specification *)

Module Spec.

Local Open Scope js_scope.

(** Equality of numbers as values: finite numbers are compared as rationals. *)
Definition equiv (a b : num) : Prop :=
  match a, b with
  | Fin x, Fin y => (x == y)%Q
  | _, _ => a = b
  end.

(** [lo <= x <= hi], with the comparisons of the language. *)
Definition between (lo x hi : num) : Prop :=
  (lo <=? x) = true /\ (x <=? hi) = true.

(** [x] is the finite number [target] up to [tol]. *)
Definition approx (x : num) (target tol : Q) : Prop :=
  exists q, x = Fin q /\ (Qabs (q - target) <= tol)%Q.


(** The numbers of a risk profile are finite. *)
Definition finite_twin (t : Server.twin) : Prop :=
  JS.isFinite (Server.base_risk_score t) = true
  /\ JS.isFinite (Server.next12m_claim_prob t) = true
  /\ JS.isFinite (Server.next12m_expected_loss t) = true.



(** The bounds of a risk profile. *)
Definition within_bounds (t : Server.twin) : Prop :=
  between (Fin 0) (Server.base_risk_score t) (Fin 100)
  /\ between (Fin 0) (Server.next12m_claim_prob t) (Fin 1)
  /\ (Fin 0 <=? Server.next12m_expected_loss t) = true.



Definition clamp (lo hi x : num) : num := Math.max lo (Math.min hi x).

(** Where [toFixed] puts its argument [q]: printed in full beyond [1e21] in
    magnitude, rounded on its magnitude below. *)
Inductive region (digits : nat) (q r : Q) : Prop :=
| far_below : (q <= - 1e21)%Q -> r = q -> region digits q r
| below : (- 1e21 < q)%Q -> (q < 0)%Q ->
          r = (- JS.nearest (JS.pow10 digits) (- q))%Q -> region digits q r
| above : (0 <= q)%Q -> (q < 1e21)%Q ->
          r = JS.nearest (JS.pow10 digits) q -> region digits q r
| far_above : (1e21 <= q)%Q -> r = q -> region digits q r.

(** Two profiles agree within the tolerance [1e-9] on every field. *)
Definition close (a b : num) : Prop :=
  a = b \/ exists x y, a = Fin x /\ b = Fin y /\ (Qabs (x - y) <= 1e-9)%Q.

Definition profile_close (t u : Server.twin) : Prop :=
  Server.name t = Server.name u
  /\ Server.state t = Server.state u
  /\ close (Server.base_risk_score t) (Server.base_risk_score u)
  /\ close (Server.next12m_claim_prob t) (Server.next12m_claim_prob u)
  /\ close (Server.next12m_expected_loss t) (Server.next12m_expected_loss u).

(** A historical series: rows of finite values whose timestamps strictly
    increase. *)
Definition series (rows : list (Z * num)) : Prop :=
  Forall (fun row => JS.isFinite (snd row) = true) rows
  /\ Sorted Z.lt (map fst rows).

(** The points of a history are finite numbers. *)
Definition finite_point (d : PredictiveRiskService.point) : Prop :=
  JS.isFinite (PredictiveRiskService.days_from_start d) = true
  /\ JS.isFinite (PredictiveRiskService.risk_score_at_time d) = true.

(** A history all of whose points fall on one day, and a history that has
    points on two different days. *)
Definition same_day (historicalData : list PredictiveRiskService.point)
  : Prop :=
  forall a b, In a historicalData -> In b historicalData ->
    PredictiveRiskService.days_from_start a
    = PredictiveRiskService.days_from_start b.



(** The rational behind a finite number, and the sum of a list of rationals. *)
Definition value (x : num) : Q :=
  match x with
  | Fin q => q
  | _ => 0%Q
  end.

Fixpoint total (xs : list Q) : Q :=
  match xs with
  | [] => 0%Q
  | x :: rest => (x + total rest)%Q
  end.

(** The mean of the successive first differences of a series of [n] scores:
    the sum of [y(k+1) - y(k)] for [k < n - 1], over [n - 1]. *)
Definition mean_step (scores : list num) : num :=
  fold_left JS.add
    (map (fun k => nth (k + 1) scores NaN - nth k scores NaN)
         (seq 0 (length scores - 1)))
    (Fin 0)
  / JS.of_nat (length scores - 1).

(** The confidence of every prediction is in (0, 1] and never increases with
    the period. *)
Definition confidence_decays (preds : list PredictiveRiskService.prediction)
  : Prop :=
  Sorted (fun c c' => (c' <=? c) = true)
         (map PredictiveRiskService.confidence preds)
  /\ Forall (fun c => (Fin 0 <? c) = true /\ (c <=? Fin 1) = true)
            (map PredictiveRiskService.confidence preds).

(** The contributions of the external factors, category by category. *)
Definition weather_contrib (weather : num) (flag : bool) : num :=
  (if weather >? Fin 0.2 then weather * Fin 10 else Fin 0)
  + (if flag then Fin 3 else Fin 0).

Definition economic_contrib (economic : num) : num :=
  if economic >? Fin 0.06 then (economic - Fin 0.06) * Fin 50 else Fin 0.

Definition traffic_contrib (traffic : num) : num := traffic * Fin 20.

Definition market_contrib (market : num) : num := market * Fin 15.

End Spec.

(** ** Concrete customers and ledgers used in the examples *)

Module Examples.

(** The profile of the scenario example: score 78.5, claim probability 0.38,
    expected loss 4200, in Florida. *)
Definition florida : Server.twin :=
  Server.mkTwin "Ana Diaz" "FL" (Fin 78.5) (Fin 0.38) (Fin 4200).

Definition texas : Server.twin :=
  Server.mkTwin "Ben Ortiz" "TX" (Fin 62) (Fin 0.25) (Fin 3100).

Definition database_of (id : Z) (t : Server.twin) : Server.database :=
  Server.mkDatabase {[ id := t ]} [] [].

(** A customer for whom no loss is expected. *)
Definition no_loss : Server.twin :=
  Server.mkTwin "Cleo Ward" "TX" (Fin 41) (Fin 0.12) (Fin 0).

(** The change of a direct client whose [decrease_deductible] is the JSON
    number [1e309], which is parsed as [Infinity]. *)
Definition infinite_decrease : Server.change :=
  Server.mkChange false None Undefined (Num PInf) Undefined Undefined Undefined.

(** The request of a direct client that lowers the deductible by a negative
    amount. *)
Definition negative_decrease : Server.request :=
  Server.mkRequest (Some 1%Z) (Some "lower deductible"%string)
    (Some (Server.mkChange false None Undefined (Num (Fin (-500)))
                           Undefined Undefined Undefined)).

(** A quiet weekday noon with little traffic and nothing else. *)
Definition quiet_noon : MLRiskService.environment :=
  MLRiskService.mkEnvironment 12 3 (Fin 0.5).

Definition calm : MLRiskService.externalFactors :=
  MLRiskService.mkExternalFactors (Fin 0) false (Fin 0.04) (Fin 0.06) (Fin 0).

Definition ohio_customer : MLRiskService.customerData :=
  MLRiskService.mkCustomerData (Num (Fin 50)) "OH".

(** The series 60, 62, 64 of the forecast example, one point a month. *)
Definition rising_by_two : list PredictiveRiskService.point :=
  [PredictiveRiskService.mkPoint (Fin 0) (Fin 60);
   PredictiveRiskService.mkPoint (Fin 30) (Fin 62);
   PredictiveRiskService.mkPoint (Fin 60) (Fin 64)].

Definition uneven_rise : list PredictiveRiskService.point :=
  [PredictiveRiskService.mkPoint (Fin 0) (Fin 60);
   PredictiveRiskService.mkPoint (Fin 30) (Fin 61);
   PredictiveRiskService.mkPoint (Fin 60) (Fin 62.54)].

(** Two scenarios applied on 1 March 2024, at 09:00 and at 15:00 (UTC), with
    the scores 60 and 62. *)
Definition two_on_one_day : list (Z * num) :=
  [(1709283600000%Z, Fin 60); (1709305200000%Z, Fin 62)].

(** A customer whose score starts at zero and creeps up. *)
Definition from_zero : list PredictiveRiskService.point :=
  [PredictiveRiskService.mkPoint (Fin 0) (Fin 0);
   PredictiveRiskService.mkPoint (Fin 300) (Fin 0.1)].

End Examples.

(* ===================================================================== *)
(** * Part II: properties *)
(* ===================================================================== *)

(** ** Comparisons of rationals *)

Lemma Qltb_true (x y : Q) : JS.Qltb x y = true <-> (x < y)%Q.
Proof.
  unfold JS.Qltb. rewrite negb_true_iff. split.
  - intros H. apply Qnot_le_lt. intros Hle. apply Qle_bool_iff in Hle. congruence.
  - intros H. destruct (Qle_bool y x) eqn:E; [|reflexivity].
    apply Qle_bool_iff in E. lra.
Qed.

Lemma Qltb_false (x y : Q) : JS.Qltb x y = false <-> (y <= x)%Q.
Proof. unfold JS.Qltb. rewrite negb_false_iff. apply Qle_bool_iff. Qed.

Lemma Qle_bool_false (x y : Q) : Qle_bool x y = false <-> (y < x)%Q.
Proof.
  split.
  - intros H. apply Qnot_le_lt. intros Hle. apply Qle_bool_iff in Hle. congruence.
  - intros H. destruct (Qle_bool x y) eqn:E; [|reflexivity].
    apply Qle_bool_iff in E. lra.
Qed.

Lemma Qzerob_true (x : Q) : JS.Qzerob x = true <-> (x == 0)%Q.
Proof. unfold JS.Qzerob. apply Qeq_bool_iff. Qed.

Lemma Qzerob_false (x : Q) : JS.Qzerob x = false <-> ~ (x == 0)%Q.
Proof.
  unfold JS.Qzerob. split.
  - intros H E. apply Qeq_bool_iff in E. congruence.
  - intros H. destruct (Qeq_bool x 0) eqn:E; [|reflexivity].
    apply Qeq_bool_iff in E. contradiction.
Qed.

(** Case analysis on the boolean tests of rationals met in a goal. *)
Ltac qcases :=
  repeat match goal with
  | |- context [JS.Qltb ?x ?y] =>
      let E := fresh "E" in
      destruct (JS.Qltb x y) eqn:E;
      [apply Qltb_true in E | apply Qltb_false in E]
  | |- context [Qle_bool ?x ?y] =>
      let E := fresh "E" in
      destruct (Qle_bool x y) eqn:E;
      [apply Qle_bool_iff in E | apply Qle_bool_false in E]
  | |- context [JS.Qzerob ?x] =>
      let E := fresh "E" in
      destruct (JS.Qzerob x) eqn:E;
      [apply Qzerob_true in E | apply Qzerob_false in E]
  end.

Lemma isFinite_Fin (x : num) : JS.isFinite x = true -> exists q, x = Fin q.
Proof. destruct x; simpl; intros H; try discriminate. eauto. Qed.

(** ** The bounds enforced by [Math.max] and [Math.min] *)

Lemma max_Fin (a b : Q) :
  exists r, Math.max (Fin a) (Fin b) = Fin r
            /\ (a <= r)%Q /\ (b <= r)%Q /\ (r = a \/ r = b).
Proof.
  unfold Math.max, JS.lt. qcases; eexists; (split; [reflexivity|]);
    repeat split; auto; lra.
Qed.

Lemma min_Fin (a b : Q) :
  exists r, Math.min (Fin a) (Fin b) = Fin r
            /\ (r <= a)%Q /\ (r <= b)%Q /\ (r = a \/ r = b).
Proof.
  unfold Math.min, JS.lt. qcases; eexists; (split; [reflexivity|]);
    repeat split; auto; lra.
Qed.

Lemma clamp_Fin (lo hi q : Q) :
  (lo <= hi)%Q ->
  exists r, Spec.clamp (Fin lo) (Fin hi) (Fin q) = Fin r
            /\ (lo <= r)%Q /\ (r <= hi)%Q.
Proof.
  intros Hle. unfold Spec.clamp.
  destruct (min_Fin hi q) as (m & -> & Hm1 & Hm2 & Hm).
  destruct (max_Fin lo m) as (r & -> & Hr1 & Hr2 & Hr).
  exists r. split; [reflexivity|]. destruct Hr as [-> | ->]; lra.
Qed.

Lemma between_Fin (lo q hi : Q) :
  (lo <= q)%Q -> (q <= hi)%Q -> Spec.between (Fin lo) (Fin q) (Fin hi).
Proof. intros H1 H2. split; simpl; apply Qle_bool_iff; assumption. Qed.

(** ** The bounds of [applyScenarioImpact] *)


Lemma get_own_only {A : Type} (m : gmap string A) (k : string) :
  JS.own_only k = true ->
  JS.get m k = match m !! k with Some a => JS.Own a | None => JS.Missing end.
Proof. intros H. unfold JS.get. rewrite H. reflexivity. Qed.

Lemma set_own {A : Type} (m : gmap string A) (k : string) (v : A) :
  JS.own_only k = true -> JS.set m k v = <[k := v]> m.
Proof.
  intros H. unfold JS.set. destruct (String.eqb k "__proto__") eqn:E; [|reflexivity].
  apply String.eqb_eq in E. subst k. discriminate.
Qed.

Lemma valid_code_own (s : string) :
  Server.validateStateCode s = true -> JS.own_only s = true.
Proof.
  destruct s as [|a [|b [|c s]]]; try discriminate. intros _.
  assert (E : forall c : bool, (if c then false else false) = false)
    by (intros []; reflexivity).
  unfold JS.own_only, JS.inherited_keys. cbn [existsb String.eqb].
  rewrite !E. reflexivity.
Qed.








(** ** Claim C1: a value that is not a number is written *)

Lemma infinite_decrease_factor :
  Server.deductibleImpactFactor Examples.infinite_decrease = PInf.
Proof. reflexivity. Qed.

Lemma infinite_decrease_loss (customer : Server.twin) :
  Spec.equiv (Server.next12m_expected_loss customer) (Fin 0) ->
  Server.next12m_expected_loss
    (Server.impactedTwin customer Examples.infinite_decrease) = NaN.
Proof.
  intros H. unfold Server.impactedTwin, Server.scaledValues.
  change (Server.truthy_str (Server.move_state Examples.infinite_decrease))
    with false.
  change (JS.truthy_val
            (JS.or_else (Server.increase_deductible Examples.infinite_decrease)
                        (Server.decrease_deductible Examples.infinite_decrease)))
    with true.
  cbv beta iota zeta. rewrite infinite_decrease_factor.
  cbn [Server.next12m_expected_loss].
  destruct (Server.next12m_expected_loss customer) as [q| | |];
    cbn [Spec.equiv] in H; try discriminate.
  cbn [JS.mul]. unfold JS.scale_inf.
  rewrite (proj2 (Qzerob_true q)) by assumption. reflexivity.
Qed.

(** C1 (failing input).  A request whose [decrease_deductible] is [Infinity]
    (the JSON number [1e309]) passes [validateScenarioData] and is applied;
    for a customer whose expected loss is 0 the expected loss that
    [applyScenarioImpact] writes is [NaN], which is not [>= 0]: the profile
    is outside its bounds. *)
Theorem infinite_decrease_writes_NaN (db : Server.database) (id : Z)
    (customer : Server.twin) (name : string) :
  (0 < id)%Z -> name <> "" -> (String.length name <= 255)%nat ->
  Server.twins db !! id = Some customer ->
  Spec.equiv (Server.next12m_expected_loss customer) (Fin 0) ->
  let body := Server.mkRequest (Some id) (Some name)
                               (Some Examples.infinite_decrease) in
  exists scenario db' updated,
    Server.postScenario body db = (Server.Created scenario, db')
    /\ Server.twins db' !! id = Some updated
    /\ updated = Server.impactedTwin customer Examples.infinite_decrease
    /\ Server.next12m_expected_loss updated = NaN
    /\ ~ Spec.within_bounds updated.
Proof.
  intros Hid Hname Hlen Hrow Hloss body.
  assert (Hnan := infinite_decrease_loss customer Hloss).
  unfold Server.postScenario, Server.validateScenarioData. subst body.
  cbn [Server.req_customer_id Server.req_name Server.req_change_json].
  assert (E0 : (id =? 0)%Z = false) by (apply Z.eqb_neq; lia).
  assert (E1 : (id <=? 0)%Z = false) by (apply Z.leb_gt; lia).
  assert (E2 : String.eqb name "" = false) by (apply String.eqb_neq; assumption).
  assert (E3 : (255 <? String.length name)%nat = false)
    by (apply Nat.ltb_ge; assumption).
  rewrite E0, E1, E2, E3.
  change (Server.truthy_str (Server.move_state Examples.infinite_decrease)
          && negb (Server.validateStateCode
                     (default ""%string
                        (Server.move_state Examples.infinite_decrease))))
    with false.
  cbv beta iota zeta.
  change (Server.increase_deductible Examples.infinite_decrease) with Undefined.
  cbv beta iota zeta.
  unfold Server.scenarioHandler.
  cbn [Server.change_json Server.customer_id Server.scenario_title].
  change (negb (Server.no_change Examples.infinite_decrease)) with true.
  cbv beta iota zeta. unfold Server.applyScenarioImpact.
  cbn [Server.twins Server.scenarios Server.timeline_events].
  rewrite Hrow.
  eexists. eexists. eexists. split; [reflexivity|].
  cbn [Server.twins]. split; [apply lookup_insert_eq|].
  split; [reflexivity|]. split; [exact Hnan|].
  intros (_ & _ & H). rewrite Hnan in H. discriminate.
Qed.

(** A state stored under the name of a property that every object inherits
    makes the jurisdiction ratio, and with it the three written values,
    [NaN]. *)
Lemma inherited_state_is_not_a_number :
  let customer :=
    Server.mkTwin "Ana Diaz" "constructor" (Fin 78.5) (Fin 0.38) (Fin 4200) in
  let move :=
    Server.mkChange false (Some "CA"%string) Undefined Undefined Undefined
                    Undefined Undefined in
  Server.stateAdjustment "CA" "constructor" = NaN
  /\ Server.base_risk_score (Server.impactedTwin customer move) = NaN
  /\ Server.next12m_claim_prob (Server.impactedTwin customer move) = NaN
  /\ Server.next12m_expected_loss (Server.impactedTwin customer move) = NaN.
Proof. vm_compute. repeat split; reflexivity. Qed.

Lemma infinite_decrease_writes_NaN_witness :
  exists scenario db' updated,
    Server.postScenario
      (Server.mkRequest (Some 1%Z) (Some "lower deductible"%string)
                        (Some Examples.infinite_decrease))
      (Examples.database_of 1 Examples.no_loss)
    = (Server.Created scenario, db')
    /\ Server.twins db' !! 1%Z = Some updated
    /\ updated = Server.impactedTwin Examples.no_loss Examples.infinite_decrease
    /\ Server.next12m_expected_loss updated = NaN
    /\ ~ Spec.within_bounds updated.
Proof.
  apply (infinite_decrease_writes_NaN (Examples.database_of 1 Examples.no_loss)
           1 Examples.no_loss "lower deductible").
  - reflexivity.
  - discriminate.
  - vm_compute. repeat constructor.
  - reflexivity.
  - reflexivity.
Defined.

(** ** Claims C2, C3, C4 and C9: the scenario endpoint and the ledger *)

Lemma applyScenario_no_change hist t s d action :
  Dashboard.isNoChange (Dashboard.applyScenario hist t s d action) = true ->
  Server.no_change (Dashboard.posted (Dashboard.applyScenario hist t s d action)) = true
  /\ Dashboard.history (Dashboard.applyScenario hist t s d action) = hist.
Proof.
  unfold Dashboard.applyScenario, Dashboard.adjustDeductible.
  repeat match goal with
  | |- context [if ?b then _ else _] => destruct b
  end; cbn; intros H; try discriminate; auto.
Qed.

Lemma scenarioHandler_no_change v db :
  Server.no_change (Server.change_json v) = true ->
  Server.twins (snd (Server.scenarioHandler v db)) = Server.twins db.
Proof.
  intros H. unfold Server.scenarioHandler. rewrite H. reflexivity.
Qed.

Lemma validate_keeps_change body v :
  Server.validateScenarioData body = inr v ->
  Server.req_change_json body = Some (Server.change_json v)
  /\ Server.req_customer_id body = Some (Server.customer_id v).
Proof.
  unfold Server.validateScenarioData. intros H.
  repeat match type of H with
  | match ?x with _ => _ end = _ => destruct x eqn:?; try discriminate
  | (if ?b then _ else _) = _ => destruct b eqn:?; try discriminate
  | (let _ := _ in _) = _ => cbv zeta in H
  end.
  injection H as <-. auto.
Qed.

Lemma postScenario_rejected body db code :
  Server.validateScenarioData body = inl code ->
  Server.postScenario body db = (Server.BadRequest code, db).
Proof. intros H. unfold Server.postScenario. rewrite H. reflexivity. Qed.

Lemma postScenario_no_change body db c :
  Server.req_change_json body = Some c -> Server.no_change c = true ->
  Server.twins (snd (Server.postScenario body db)) = Server.twins db.
Proof.
  intros Hc Hno. unfold Server.postScenario.
  destruct (Server.validateScenarioData body) as [code|v] eqn:E; [reflexivity|].
  apply validate_keeps_change in E. destruct E as [E _].
  rewrite Hc in E. injection E as ->.
  apply scenarioHandler_no_change. assumption.
Qed.

Lemma apply_unfold db hist id s d action name a :
  Dashboard.apply db hist id s d action name = Some a ->
  exists t, Server.twins db !! id = Some t /\ id <> 0%Z /\
    let out := Dashboard.applyScenario hist t s d action in
    let body := Server.mkRequest (Some id) (Some name)
                  (Some (Dashboard.wire (Dashboard.posted out))) in
    let db' := snd (Server.postScenario body db) in
    a = Dashboard.mkApplication (Dashboard.posted out)
          (fst (Server.postScenario body db)) db'
          (Dashboard.history out)
          (fst (Dashboard.loadTwin db' id)) (snd (Dashboard.loadTwin db' id))
          (Dashboard.isNoChange out).
Proof.
  unfold Dashboard.apply. intros H.
  destruct (id =? 0)%Z eqn:E0; [discriminate|].
  destruct (Server.twins db !! id) as [t|] eqn:Et; [|discriminate].
  exists t. split; [reflexivity|]. split; [apply Z.eqb_neq; assumption|].
  cbv zeta.
  destruct (Server.postScenario _ db) as [r db'] eqn:Ep.
  cbn [fst snd].
  destruct (Dashboard.loadTwin db' id) as [newTwin reloaded] eqn:El.
  injection H as <-. reflexivity.
Qed.

(** C2 (amended).  On a page that has loaded the customer, whenever [apply]
    reports [is_no_op = true] the stored profiles are exactly those of the
    input, the reloaded twin is the input twin, and the ledger is the input
    ledger both when the request is sent and after the reload; a call with
    no state and no positive amount reports [is_no_op = true], and so does a
    move to the customer's current jurisdiction with no deductible amount
    and a non-zero ledger entry for it.  The flag is decided from the form
    fields before the request, so the converse does not hold. *)
Theorem no_op_flag_sound db (hist : gmap string num) id t s d action name a :
  Server.twins db !! id = Some t ->
  hist = Dashboard.initializeDeductibleHistory t ->
  Dashboard.apply db hist id s d action name = Some a ->
  (Dashboard.is_no_op a = true ->
     Server.twins (Dashboard.db_after a) = Server.twins db
     /\ Dashboard.twin_after a = Some t
     /\ Dashboard.ledger_at_request a = hist
     /\ Dashboard.ledger_after a = hist)
  /\ (s = "" -> (d >? Fin 0)%js = false -> Dashboard.is_no_op a = true)
  /\ (s = Server.state t -> s <> "" ->
        JS.has_truthy hist s = true -> JS.truthy d = false ->
        Dashboard.is_no_op a = true).
Proof.
  intros Hrow Hreach H. apply apply_unfold in H.
  destruct H as (t' & Ht & Hid & ->).
  rewrite Hrow in Ht. injection Ht as <-.
  cbn [Dashboard.is_no_op Dashboard.db_after Dashboard.ledger_after
       Dashboard.ledger_at_request Dashboard.twin_after].
  split; [|split].
  - intros Hno. apply applyScenario_no_change in Hno. destruct Hno as [Hflag Hhist].
    assert (Htwins :
      Server.twins
        (snd (Server.postScenario
                (Server.mkRequest (Some id) (Some name)
                   (Some (Dashboard.wire
                            (Dashboard.posted
                               (Dashboard.applyScenario hist t s d action)))))
                db))
      = Server.twins db).
    { eapply postScenario_no_change; [reflexivity|]. exact Hflag. }
    split; [exact Htwins|].
    unfold Dashboard.loadTwin. rewrite Htwins, Hrow. cbn [fst snd].
    split; [reflexivity|]. split; [assumption | symmetry; assumption].
  - intros -> Hd. unfold Dashboard.applyScenario.
    cbn [String.eqb negb]. rewrite Hd. reflexivity.
  - intros -> Hne Htr Hd.
    unfold Dashboard.applyScenario.
    apply String.eqb_neq in Hne. rewrite Hne. cbn [negb].
    rewrite String.eqb_refl, Htr, Hd. reflexivity.
Qed.

Lemma no_op_flag_sound_witness :
  let db := Examples.database_of 1 Examples.texas in
  let hist : gmap string num := {[ "TX" := Fin 1500 ]} in
  exists a,
  Dashboard.apply db hist 1 "TX" (Fin 0) "increase" "What-if: no change" = Some a
  /\ (Dashboard.is_no_op a = true ->
       Server.twins (Dashboard.db_after a) = Server.twins db
       /\ Dashboard.twin_after a = Some Examples.texas
       /\ Dashboard.ledger_at_request a = hist
       /\ Dashboard.ledger_after a = hist)
  /\ ("TX" = "" -> (Fin 0 >? Fin 0)%js = false -> Dashboard.is_no_op a = true)
  /\ ("TX" = Server.state Examples.texas -> "TX" <> "" ->
        JS.has_truthy hist "TX" = true -> JS.truthy (Fin 0) = false ->
        Dashboard.is_no_op a = true).
Proof.
  intros db hist. eexists.
  assert (E : Dashboard.apply db hist 1 "TX" (Fin 0) "increase"
                "What-if: no change" = Some _) by (vm_compute; reflexivity).
  split; [exact E|].
  refine (no_op_flag_sound db hist 1 Examples.texas "TX" (Fin 0) "increase"
            "What-if: no change" _ _ _ E); reflexivity.
Defined.

(** C2 (counterexample).  A Texas customer is loaded, so the ledger holds
    1500 for Texas; Texas is selected and the amount is -5.  The returned
    profile equals the input, the ledger is the same when the request is
    sent and after the call, and yet [is_no_op] is false. *)
Lemma no_op_flag_incomplete :
  exists a t,
    Dashboard.apply (Examples.database_of 1 Examples.texas)
      (Dashboard.initializeDeductibleHistory Examples.texas) 1 "TX" (Fin (-5))
      "increase" "What-if: move to TX" = Some a
    /\ Dashboard.initializeDeductibleHistory Examples.texas
       = {[ "TX" := Fin 1500 ]}
    /\ Server.twins (Dashboard.db_after a) !! 1%Z = Some t
    /\ Dashboard.twin_after a = Some t
    /\ Spec.profile_close Examples.texas t
    /\ Dashboard.ledger_at_request a = {[ "TX" := Fin 1500 ]}
    /\ Dashboard.ledger_after a = {[ "TX" := Fin 1500 ]}
    /\ Dashboard.is_no_op a = false.
Proof.
  eexists. eexists. split; [vm_compute; reflexivity|].
  split; [vm_compute; reflexivity|].
  split; [vm_compute; reflexivity|].
  split; [vm_compute; reflexivity|].
  split; [repeat split; try reflexivity; left; reflexivity|].
  split; [vm_compute; reflexivity|].
  split; [vm_compute; reflexivity | reflexivity].
Qed.

Ltac qle := apply Qle_bool_iff; vm_compute; reflexivity.

(** C3 (failing input).  The scenario example, once from the empty ledger of
    the example and once from the ledger the page has when the customer is
    loaded: from score 78.5, claim probability 0.38 and loss 4200 in Florida,
    a move to California with the deductible raised by 500 multiplies the
    three fields by the ratio 1.12/1.15 (about 0.9739; score about 76.45) and
    then by 0.95 and gives a score of about 72.63.  When the request is sent
    the ledger holds California at 500 (at 2000 from the loaded ledger, which
    has Florida at 1500); the reload that ends the call replaces it, and the
    call leaves California at 1500. *)
Theorem scenario_example :
  exists a0 a t,
    Dashboard.apply (Examples.database_of 1 Examples.florida) ∅ 1 "CA"
      (Fin 500) "increase" "What-if: move to CA + $500 deductible" = Some a0
    /\ Dashboard.apply (Examples.database_of 1 Examples.florida)
         (Dashboard.initializeDeductibleHistory Examples.florida) 1 "CA"
         (Fin 500) "increase" "What-if: move to CA + $500 deductible" = Some a
    /\ Server.twins (Dashboard.db_after a0) !! 1%Z = Some t
    /\ Server.twins (Dashboard.db_after a) !! 1%Z = Some t
    /\ Dashboard.twin_after a0 = Some t
    /\ Dashboard.twin_after a = Some t
    /\ Server.state t = "CA"
    /\ Spec.approx (Server.stateAdjustment "CA" "FL") 0.9739 0.00005
    /\ Spec.approx (Fin 78.5 * Server.stateAdjustment "CA" "FL")%js 76.45 0.005
    /\ Spec.equiv (Server.deductibleImpactFactor (Dashboard.sent a0)) (Fin 0.95)
    /\ Spec.equiv (Server.deductibleImpactFactor (Dashboard.sent a)) (Fin 0.95)
    /\ Spec.equiv (Server.base_risk_score t)
                   (Fin (78.5 * (1.12 / 1.15) * 0.95))
    /\ Spec.equiv (Server.next12m_claim_prob t)
                   (Fin (0.38 * (1.12 / 1.15) * 0.95))
    /\ Spec.equiv (Server.next12m_expected_loss t)
                   (Fin (4200 * (1.12 / 1.15) * 0.95))
    /\ Spec.approx (Server.base_risk_score t) 72.63 0.005
    /\ Dashboard.ledger_at_request a0 = {[ "CA" := Fin 500 ]}
    /\ Dashboard.ledger_at_request a
       = <["CA" := Fin 2000]> {[ "FL" := Fin 1500 ]}
    /\ Dashboard.ledger_after a0 = {[ "CA" := Fin 1500 ]}
    /\ Dashboard.ledger_after a = {[ "CA" := Fin 1500 ]}
    /\ Dashboard.ledger_after a <> {[ "CA" := Fin 500 ]}
    /\ Dashboard.is_no_op a = false.
Proof.
  eexists. eexists. eexists. split; [vm_compute; reflexivity|].
  split; [vm_compute; reflexivity|].
  split; [vm_compute; reflexivity|].
  split; [vm_compute; reflexivity|].
  split; [vm_compute; reflexivity|].
  split; [vm_compute; reflexivity|].
  split; [reflexivity|].
  split; [eexists; split; [vm_compute; reflexivity | qle]|].
  split; [eexists; split; [vm_compute; reflexivity | qle]|].
  split; [vm_compute; reflexivity|].
  split; [vm_compute; reflexivity|].
  split; [vm_compute; reflexivity|].
  split; [vm_compute; reflexivity|].
  split; [vm_compute; reflexivity|].
  split; [eexists; split; [reflexivity | qle]|].
  split; [vm_compute; reflexivity|].
  split; [vm_compute; reflexivity|].
  split; [vm_compute; reflexivity|].
  split; [vm_compute; reflexivity|].
  split; [|reflexivity].
  intros E.
  assert (F : ({[ "CA" := Fin 1500 ]} : gmap string num) !! "CA"
              = ({[ "CA" := Fin 500 ]} : gmap string num) !! "CA")
    by (f_equal; exact E).
  rewrite !lookup_singleton_eq in F. discriminate.
Qed.

(** C4 (failing input).  A Texas customer is loaded and raises the
    deductible by 500: 2000 is recorded for Texas when the request is sent,
    and the reload that ends the call puts the ledger back to Texas at 1500.
    The move to California records 1500 there, not the 2000 last held in
    Texas, and leaves California at 1500 and nothing for Texas; the move
    back finds no entry for Texas, posts no [restore_deductible] and leaves
    Texas at 1500. *)
Theorem round_trip_does_not_restore :
  exists a1 a2 a3 t,
    Dashboard.apply (Examples.database_of 1 Examples.texas)
      (Dashboard.initializeDeductibleHistory Examples.texas) 1 "" (Fin 500)
      "increase" "What-if: increase deductible by $500" = Some a1
    /\ Dashboard.apply (Dashboard.db_after a1) (Dashboard.ledger_after a1) 1
         "CA" (Fin 0) "increase" "What-if: move to CA" = Some a2
    /\ Dashboard.apply (Dashboard.db_after a2) (Dashboard.ledger_after a2) 1
         "TX" (Fin 0) "increase" "What-if: move to TX" = Some a3
    /\ Server.final_deductible (Dashboard.sent a1) = Num (Fin 2000)
    /\ Dashboard.ledger_at_request a1 = {[ "TX" := Fin 2000 ]}
    /\ Dashboard.ledger_after a1 = {[ "TX" := Fin 1500 ]}
    /\ Dashboard.ledger_at_request a2
       = <["CA" := Fin 1500]> {[ "TX" := Fin 1500 ]}
    /\ Dashboard.ledger_after a2 = {[ "CA" := Fin 1500 ]}
    /\ Dashboard.ledger_after a2 !! "TX" = None
    /\ Server.move_state (Dashboard.sent a3) = Some "TX"
    /\ Server.restore_deductible (Dashboard.sent a3) = Undefined
    /\ Dashboard.twin_after a3 = Some t
    /\ Server.state t = "TX"
    /\ Dashboard.ledger_after a3 = {[ "TX" := Fin 1500 ]}.
Proof.
  eexists. eexists. eexists. eexists.
  split; [vm_compute; reflexivity|].
  split; [vm_compute; reflexivity|].
  split; [vm_compute; reflexivity|].
  split; [vm_compute; reflexivity|].
  split; [vm_compute; reflexivity|].
  split; [vm_compute; reflexivity|].
  split; [vm_compute; reflexivity|].
  split; [vm_compute; reflexivity|].
  split; [vm_compute; reflexivity|].
  split; [vm_compute; reflexivity|].
  split; [vm_compute; reflexivity|].
  split; [vm_compute; reflexivity|].
  split; [vm_compute; reflexivity|].
  vm_compute; reflexivity.
Qed.

(** C9 (failing input).  A request whose [decrease_deductible] is -500
    passes [validateScenarioData] and is applied: the three risk values of
    the customer are multiplied by 0.95. *)
Theorem negative_decrease_is_applied :
  exists scenario db t,
    Server.validateScenarioData Examples.negative_decrease
      = inr (Server.mkValidated 1 "lower deductible"
               (Server.mkChange false None Undefined (Num (Fin (-500)))
                                Undefined Undefined Undefined))
    /\ Server.postScenario Examples.negative_decrease
         (Examples.database_of 1 Examples.florida)
       = (Server.Created scenario, db)
    /\ Server.twins db !! 1%Z = Some t
    /\ Spec.equiv (Server.base_risk_score t) (Fin (78.5 * 0.95))
    /\ Spec.equiv (Server.next12m_claim_prob t) (Fin (0.38 * 0.95))
    /\ Spec.equiv (Server.next12m_expected_loss t) (Fin (4200 * 0.95)).
Proof.
  eexists. eexists. eexists.
  split; [vm_compute; reflexivity|].
  split; [vm_compute; reflexivity|].
  split; [vm_compute; reflexivity|].
  split; [vm_compute; reflexivity|].
  split; vm_compute; reflexivity.
Qed.

(** ** Rounding to a fixed number of decimals *)


Section rounding.
Variable digits : nat.
Local Abbreviation p := (JS.pow10 digits).
Local Abbreviation P := (inject_Z (Zpos (JS.pow10 digits))).
Local Abbreviation T := (1e21%Q).

Lemma P_pos : (0 < P)%Q.
Proof. change 0%Q with (inject_Z 0). rewrite <- Zlt_Qlt. lia. Qed.

Lemma nearest_scaled q : (JS.nearest p q * P == inject_Z (Qfloor (q * P + (1#2))))%Q.
Proof.
  unfold JS.nearest. rewrite Qmake_Qdiv. field.
  pose proof P_pos. lra.
Qed.

Lemma nearest_upper q : (JS.nearest p q * P <= q * P + (1#2))%Q.
Proof. rewrite nearest_scaled. apply Qfloor_le. Qed.

Lemma nearest_lower q : (q * P - (1#2) < JS.nearest p q * P)%Q.
Proof.
  rewrite nearest_scaled.
  pose proof (Qlt_floor (q * P + (1#2))) as H.
  rewrite inject_Z_plus in H. change (inject_Z 1) with 1%Q in H. lra.
Qed.

Lemma nearest_mono q1 q2 : (q1 <= q2)%Q -> (JS.nearest p q1 * P <= JS.nearest p q2 * P)%Q.
Proof.
  intros H. rewrite !nearest_scaled. rewrite <- Zle_Qle.
  apply Qfloor_resp_le. pose proof P_pos. nra.
Qed.

Lemma TP_integer : (T * P == inject_Z (10 ^ 21 * Zpos p))%Q.
Proof. rewrite inject_Z_mult. reflexivity. Qed.

Lemma nearest_nonneg q : (0 <= q)%Q -> (0 <= JS.nearest p q * P)%Q.
Proof.
  intros H. rewrite nearest_scaled. change 0%Q with (inject_Z 0).
  rewrite <- Zle_Qle. rewrite <- (Qfloor_Z 0). apply Qfloor_resp_le.
  pose proof P_pos. change (inject_Z 0) with 0%Q.
  assert (0 <= q * P)%Q by (apply Qmult_le_0_compat; lra). lra.
Qed.

Lemma nearest_below_T q : (q < T)%Q -> (JS.nearest p q * P <= T * P)%Q.
Proof.
  intros H. rewrite nearest_scaled, TP_integer. rewrite <- Zle_Qle.
  apply Z.lt_succ_r. rewrite Zlt_Qlt.
  eapply Qle_lt_trans; [apply Qfloor_le|].
  unfold Z.succ. rewrite inject_Z_plus, <- TP_integer.
  change (inject_Z 1) with 1%Q. pose proof P_pos. nra.
Qed.


Lemma toFixedQ_region q : Spec.region digits q (JS.toFixedQ digits q).
Proof.
  unfold JS.toFixedQ.
  destruct (Qle_bool 1e21 (Qabs q)) eqn:Ebig.
  - apply Qle_bool_iff in Ebig.
    destruct (Qlt_le_dec q 0) as [Hneg|Hpos].
    + apply Spec.far_below; [|reflexivity].
      rewrite Qabs_neg in Ebig by lra. lra.
    + apply Spec.far_above; [|reflexivity].
      rewrite Qabs_pos in Ebig by lra. lra.
  - apply Qle_bool_false in Ebig.
    destruct (JS.Qltb q 0) eqn:Eneg.
    + apply Qltb_true in Eneg. apply Spec.below; [|lra|reflexivity].
      rewrite Qabs_neg in Ebig by lra. lra.
    + apply Qltb_false in Eneg. apply Spec.above; [lra| |reflexivity].
      rewrite Qabs_pos in Ebig by lra. lra.
Qed.

Lemma toFixedQ_error q :
  (q * P - (1#2) <= JS.toFixedQ digits q * P <= q * P + (1#2))%Q.
Proof.
  pose proof P_pos.
  destruct (toFixedQ_region q) as [? ->| ? ? ->| ? ? ->| ? ->];
    try lra.
  - pose proof (nearest_upper (- q)). pose proof (nearest_lower (- q)). lra.
  - pose proof (nearest_upper q). pose proof (nearest_lower q). lra.
Qed.

Lemma scaled_le a b : (a * P <= b * P)%Q -> (a <= b)%Q.
Proof. pose proof P_pos. intros; nra. Qed.

Lemma toFixedQ_mono q1 q2 :
  (q1 <= q2)%Q -> (JS.toFixedQ digits q1 <= JS.toFixedQ digits q2)%Q.
Proof.
  intros Hle. pose proof P_pos. apply scaled_le.
  destruct (toFixedQ_region q1) as [? ->| ? ? ->| ? ? ->| ? ->];
  destruct (toFixedQ_region q2) as [? ->| ? ? ->| ? ? ->| ? ->];
    try lra; try nra.
  all: try (pose proof (nearest_mono q1 q2)).
  all: try (pose proof (nearest_mono (-q2) (-q1))).
  all: try (pose proof (nearest_nonneg q1)).
  all: try (pose proof (nearest_nonneg q2)).
  all: try (pose proof (nearest_nonneg (-q1))).
  all: try (pose proof (nearest_nonneg (-q2))).
  all: try (pose proof (nearest_below_T q1)).
  all: try (pose proof (nearest_below_T q2)).
  all: try (pose proof (nearest_below_T (-q1))).
  all: try (pose proof (nearest_below_T (-q2))).
  all: try nra.
Qed.

Lemma nearest_comp q q' : (q == q')%Q -> JS.nearest p q = JS.nearest p q'.
Proof.
  intros H. unfold JS.nearest. f_equal. apply Qfloor_comp. rewrite H. reflexivity.
Qed.

Lemma toFixedQ_comp q q' :
  (q == q')%Q -> (JS.toFixedQ digits q == JS.toFixedQ digits q')%Q.
Proof.
  intros H.
  destruct (toFixedQ_region q) as [? ->| ? ? ->| ? ? ->| ? ->];
  destruct (toFixedQ_region q') as [? ->| ? ? ->| ? ? ->| ? ->];
    try lra.
  - rewrite (nearest_comp (- q) (- q')); [reflexivity | lra].
  - rewrite (nearest_comp q q'); [reflexivity | lra].
Qed.


End rounding.

(** ** Equality of numbers as values *)

Lemma equiv_refl (a : num) : Spec.equiv a a.
Proof. destruct a; simpl; reflexivity. Qed.

Lemma equiv_sym (a b : num) : Spec.equiv a b -> Spec.equiv b a.
Proof. destruct a, b; simpl; intros H; try discriminate; auto. symmetry; assumption. Qed.

Lemma equiv_trans (a b c : num) :
  Spec.equiv a b -> Spec.equiv b c -> Spec.equiv a c.
Proof.
  destruct a, b, c; simpl; intros H1 H2; try discriminate; auto.
  rewrite H1. assumption.
Qed.

Lemma Qzerob_comp (x y : Q) : (x == y)%Q -> JS.Qzerob x = JS.Qzerob y.
Proof.
  intros H. destruct (JS.Qzerob y) eqn:E.
  - apply Qzerob_true. apply Qzerob_true in E. lra.
  - apply Qzerob_false. apply Qzerob_false in E. lra.
Qed.

Lemma Qltb_comp (x y u v : Q) :
  (x == y)%Q -> (u == v)%Q -> JS.Qltb x u = JS.Qltb y v.
Proof.
  intros H1 H2. destruct (JS.Qltb y v) eqn:E.
  - apply Qltb_true. apply Qltb_true in E. lra.
  - apply Qltb_false. apply Qltb_false in E. lra.
Qed.

Lemma neg_equiv (a b : num) : Spec.equiv a b -> Spec.equiv (- a)%js (- b)%js.
Proof.
  destruct a, b; simpl; intros H; try discriminate; auto. rewrite H. reflexivity.
Qed.

Lemma add_equiv (a a' b b' : num) :
  Spec.equiv a a' -> Spec.equiv b b' -> Spec.equiv (a + b)%js (a' + b')%js.
Proof.
  destruct a, a', b, b'; simpl; intros H1 H2; try discriminate; auto.
  rewrite H1, H2. reflexivity.
Qed.

Lemma sub_equiv (a a' b b' : num) :
  Spec.equiv a a' -> Spec.equiv b b' -> Spec.equiv (a - b)%js (a' - b')%js.
Proof. intros H1 H2. apply add_equiv; [assumption | apply neg_equiv; assumption]. Qed.

Lemma mul_equiv (a a' b b' : num) :
  Spec.equiv a a' -> Spec.equiv b b' -> Spec.equiv (a * b)%js (a' * b')%js.
Proof.
  destruct a, a', b, b'; simpl; intros H1 H2; try discriminate; auto;
    unfold JS.scale_inf;
    try (rewrite (Qzerob_comp _ _ H1), (Qltb_comp _ _ 0 0 H1) by reflexivity;
         apply equiv_refl);
    try (rewrite (Qzerob_comp _ _ H2), (Qltb_comp _ _ 0 0 H2) by reflexivity;
         apply equiv_refl).
  rewrite H1, H2. reflexivity.
Qed.

Lemma toFixed_equiv (digits : nat) (a b : num) :
  Spec.equiv a b ->
  Spec.equiv (JS.parseFloat_toFixed digits a) (JS.parseFloat_toFixed digits b).
Proof.
  destruct a, b; simpl; intros H; try discriminate; auto.
  apply toFixedQ_comp. assumption.
Qed.

Lemma add_zero_l (a : num) : Spec.equiv (Fin 0 + a)%js a.
Proof. destruct a; simpl; try reflexivity. lra. Qed.

Lemma add_zero_r (a : num) : Spec.equiv (a + Fin 0)%js a.
Proof. destruct a; simpl; try reflexivity. lra. Qed.

(** ** Claim C8: [calculateRiskScore] *)

Import MLRiskService.

(** C8 (amended).  Each category contributes independently: weather is
    [weather * 10] above 0.2 and 0 otherwise, plus 3 when the hazard flag is
    set; economic is [(economic - 0.06) * 50] above 0.06 and 0 otherwise;
    traffic is [traffic * 20]; market is [market * 15]; the temporal
    adjustment is added as it is.  The reported adjustment is the sum of the
    five times 0.7, rounded to one decimal. *)
Theorem external_factor_adjustment
    (customer : customerData) (ext : externalFactors) (env : environment) :
  let result := calculateRiskScore customer ext env in
  let weather_c :=
    Spec.weather_contrib (severe_weather_probability ext)
      (hurricane_season ext && includes hurricane_states (state customer)) in
  let economic_c := Spec.economic_contrib (unemployment_rate ext) in
  let traffic_c := Spec.traffic_contrib (accident_rate_increase ext) in
  let market_c := Spec.market_contrib (claims_frequency_trend ext) in
  let temporal_c := getTemporalAdjustment env in
  let raw := (weather_c + economic_c + traffic_c + market_c + temporal_c)%js in
  Spec.equiv (weather (factors result)) weather_c
  /\ Spec.equiv (economic (factors result)) economic_c
  /\ Spec.equiv (traffic (factors result)) traffic_c
  /\ Spec.equiv (market (factors result)) market_c
  /\ Spec.equiv (temporal (factors result)) temporal_c
  /\ Spec.equiv (adjustment result)
                (JS.parseFloat_toFixed 1 (raw * Fin 0.7)%js).
Proof.
  intros result weather_c economic_c traffic_c market_c temporal_c raw.
  assert (Hw : Spec.equiv (weather (factors result)) weather_c).
  { subst result weather_c. cbn [calculateRiskScore factors weather calculateAdjustments].
    unfold calculateRiskScore, calculateAdjustments, Spec.weather_contrib.
    cbn [factors weather].
    destruct (JS.gt _ _); destruct (_ && _);
      try apply add_zero_r;
      try (apply add_equiv; [apply add_zero_l | apply equiv_refl]).
    - apply equiv_trans with (severe_weather_probability ext * Fin 10)%js;
        [apply add_zero_l | apply equiv_sym, add_zero_r].
    - apply add_equiv; apply equiv_refl.
    - apply equiv_sym, add_zero_r. }
  assert (He : Spec.equiv (economic (factors result)) economic_c).
  { subst result economic_c.
    unfold calculateRiskScore, calculateAdjustments, Spec.economic_contrib.
    cbn [factors economic].
    destruct (JS.gt _ _); [apply add_zero_l | apply equiv_refl]. }
  assert (Ht : Spec.equiv (traffic (factors result)) traffic_c)
    by apply add_zero_l.
  assert (Hm : Spec.equiv (market (factors result)) market_c)
    by apply add_zero_l.
  assert (Hp : Spec.equiv (temporal (factors result)) temporal_c)
    by apply add_zero_l.
  repeat (split; [assumption|]).
  subst result raw. unfold calculateRiskScore at 1. cbn [adjustment].
  apply toFixed_equiv, mul_equiv; [|apply equiv_refl].
  unfold totalAdjustment. cbn [fold_left].
  do 4 (apply add_equiv; [|assumption]).
  eapply equiv_trans; [apply add_zero_l | assumption].
Qed.

(** C8 (counterexample).  With a traffic increase of 0.06 and nothing else
    the sum times 0.7 is 0.84, and the reported adjustment is 0.8. *)
Lemma adjustment_is_rounded :
  let result := calculateRiskScore Examples.ohio_customer Examples.calm Examples.quiet_noon in
  let raw := (Spec.weather_contrib (Fin 0) false + Spec.economic_contrib (Fin 0.04)
              + Spec.traffic_contrib (Fin 0.06) + Spec.market_contrib (Fin 0)
              + getTemporalAdjustment Examples.quiet_noon)%js in
  Spec.equiv (raw * Fin 0.7)%js (Fin 0.84)
  /\ Spec.equiv (adjustment result) (Fin 0.8)
  /\ ~ Spec.equiv (adjustment result) (raw * Fin 0.7)%js.
Proof.
  split; [vm_compute; reflexivity|].
  split; [vm_compute; reflexivity|].
  vm_compute. discriminate.
Qed.

(** ** Claims C7 and C10: the damped model and the trend direction *)

Import PredictiveRiskService.

Lemma length_array_from {A : Type} (n : nat) (f : nat -> A) :
  length (array_from n f) = n.
Proof. unfold array_from. rewrite length_map, length_seq. reflexivity. Qed.

Lemma at_index_array_from (n i : nat) (f : nat -> prediction) :
  (i < n)%nat -> at_index (array_from n f) i = f i.
Proof.
  intros H. unfold at_index, array_from.
  rewrite (nth_indep _ _ (f 0%nat)) by (rewrite length_map, length_seq; lia).
  rewrite map_nth, seq_nth by lia. reflexivity.
Qed.

Lemma differences_cons (a b : point) (t : list point) :
  differences (a :: b :: t)
  = (risk_score_at_time b - risk_score_at_time a)%js :: differences (b :: t).
Proof. reflexivity. Qed.

Lemma differences_length (h : list point) :
  length (differences h) = (length h - 1)%nat.
Proof.
  induction h as [|a [|b t] IH]; try reflexivity.
  rewrite differences_cons. cbn [length] in *. rewrite IH. lia.
Qed.

Lemma differences_by_index (h : list point) :
  differences h
  = map (fun k => (nth (k + 1) (map risk_score_at_time h) NaN
                   - nth k (map risk_score_at_time h) NaN)%js)
        (seq 0 (length h - 1)).
Proof.
  induction h as [|a [|b t] IH]; try reflexivity.
  rewrite differences_cons, IH.
  cbn [length]. replace (S (S (length t)) - 1)%nat with (S (length t)) by lia.
  replace (S (length t) - 1)%nat with (length t) by lia.
  cbn [seq map]. f_equal.
  rewrite <- seq_shift, map_map. apply map_ext. intros k.
  reflexivity.
Qed.

Lemma avgDifference_mean_step (h : list point) :
  (fold_left JS.add (differences h) (Fin 0)
   / JS.of_nat (length (differences h)))%js
  = Spec.mean_step (map risk_score_at_time h).
Proof.
  unfold Spec.mean_step. rewrite length_map, differences_length.
  rewrite differences_by_index. reflexivity.
Qed.


(** C7 (amended).  With at least 3 points the damped autoregressive model
    predicts, for period [i], the current value plus [i] times the mean of
    the successive first differences, clamped to [0, 100] and then rounded
    to one decimal; with fewer than 3 points it is the exponential smoothing
    forecast.  For the series 60, 62, 64 the mean step is 2 and the three
    predictions from 64 are 66, 68 and 70. *)
Theorem arima_forecast (historicalData : list point) (currentRisk : num) (timeSteps : nat) :
  arimaForecast historicalData currentRisk timeSteps
  = (if (length historicalData <? 3)%nat
     then exponentialSmoothingForecast historicalData currentRisk timeSteps
     else array_from timeSteps (fun i =>
            {| period := i + 1;
               predicted_risk :=
                 JS.parseFloat_toFixed 1
                   (Spec.clamp (Fin 0) (Fin 100)
                      (currentRisk
                       + Spec.mean_step (map risk_score_at_time historicalData)
                         * (JS.of_nat i + Fin 1))%js);
               confidence :=
                 Math.max (Fin 0.5) (Fin 0.9 - JS.of_nat i * Fin 0.05)%js |}))
  /\ Spec.equiv (Spec.mean_step (map risk_score_at_time Examples.rising_by_two)) (Fin 2)
  /\ Forall2 Spec.equiv
       (map predicted_risk (arimaForecast Examples.rising_by_two (Fin 64) 3))
       [Fin 66; Fin 68; Fin 70].
Proof.
  split.
  - unfold arimaForecast. destruct (length historicalData <? 3)%nat; [reflexivity|].
    rewrite avgDifference_mean_step. reflexivity.
  - split; [vm_compute; reflexivity|].
    repeat constructor; vm_compute; reflexivity.
Qed.

(** C7 (counterexample).  For the series 60, 61, 62.54 and the current value
    62.54 the clamped extrapolation is 63.81 and the prediction is 63.8. *)
Lemma arima_prediction_is_rounded :
  let predicted := predicted_risk (at_index (arimaForecast Examples.uneven_rise (Fin 62.54) 1) 0) in
  let claimed := Spec.clamp (Fin 0) (Fin 100)
       (Fin 62.54 + Spec.mean_step (map risk_score_at_time Examples.uneven_rise) * Fin 1)%js in
  Spec.equiv claimed (Fin 63.81)
  /\ Spec.equiv predicted (Fin 63.8)
  /\ ~ Spec.equiv predicted claimed.
Proof.
  split; [vm_compute; reflexivity|]. split; [vm_compute; reflexivity|].
  vm_compute. discriminate.
Qed.

Lemma at_index_last (p0 : prediction) (rest : list prediction) (pl : prediction) :
  at_index (p0 :: rest ++ [pl]) (length (p0 :: rest ++ [pl]) - 1) = pl.
Proof.
  unfold at_index. cbn [length]. rewrite Nat.sub_succ, Nat.sub_0_r.
  rewrite length_app. cbn [length].
  replace (length rest + 1)%nat with (S (length rest)) by lia.
  cbn [nth]. rewrite app_nth2 by lia. rewrite Nat.sub_diag. reflexivity.
Qed.

(** C10 (amended).  [calculateTrendDirection] answers "stable" for fewer than
    2 predictions.  When the first predicted value is 0 it never fails: the
    answer is "increasing" if the last value is positive, "decreasing" if it
    is negative, and "stable" if it is 0 as well. *)
Theorem trend_direction_edge_cases :
  (forall predictions, (length predictions < 2)%nat ->
     calculateTrendDirection predictions = "stable"%string)
  /\ (forall p0 rest pl zero last,
        predicted_risk p0 = Fin zero -> (zero == 0)%Q ->
        predicted_risk pl = Fin last ->
        calculateTrendDirection (p0 :: rest ++ [pl])
        = if JS.Qltb 0 last then "increasing"%string
          else if JS.Qltb last 0 then "decreasing"%string
          else "stable"%string).
Proof.
  split.
  - intros predictions H. unfold calculateTrendDirection.
    apply Nat.ltb_lt in H. rewrite H. reflexivity.
  - intros p0 rest pl zero last H0 Hz Hl. unfold calculateTrendDirection.
    rewrite at_index_last.
    assert (Hlen : (length (p0 :: rest ++ [pl]) <? 2)%nat = false).
    { apply Nat.ltb_ge. cbn [length]. rewrite length_app. cbn [length]. lia. }
    rewrite Hlen. unfold at_index. cbn [nth]. rewrite H0, Hl.
    cbn [JS.sub JS.neg JS.add JS.div].
    rewrite (proj2 (Qzerob_true zero) Hz).
    destruct (JS.Qltb 0 last) eqn:Epos.
    + apply Qltb_true in Epos.
      assert (E1 : JS.Qzerob (last + - zero) = false) by (apply Qzerob_false; lra).
      assert (E2 : JS.Qltb (last + - zero) 0 = false) by (apply Qltb_false; lra).
      rewrite E1, E2. reflexivity.
    + apply Qltb_false in Epos. destruct (JS.Qltb last 0) eqn:Eneg.
      * apply Qltb_true in Eneg.
        assert (E1 : JS.Qzerob (last + - zero) = false) by (apply Qzerob_false; lra).
        assert (E2 : JS.Qltb (last + - zero) 0 = true) by (apply Qltb_true; lra).
        rewrite E1, E2. reflexivity.
      * apply Qltb_false in Eneg.
        assert (E1 : JS.Qzerob (last + - zero) = true) by (apply Qzerob_true; lra).
        rewrite E1. reflexivity.
Qed.


Lemma trend_direction_edge_cases_witness :
  calculateTrendDirection
    ([mkPrediction 1 (Fin 0) (Fin 0.9)] ++ [mkPrediction 2 (Fin 10) (Fin 0.8)])
  = "increasing"%string.
Proof.
  exact (proj2 trend_direction_edge_cases
           (mkPrediction 1 (Fin 0) (Fin 0.9)) []
           (mkPrediction 2 (Fin 10) (Fin 0.8)) 0%Q 10%Q
           eq_refl (Qeq_refl 0) eq_refl).
Defined.

(** C10 (counterexample).  The 12-month ensemble forecast of a customer at 0
    with the history 0, 0.1 starts at 0, ends at 0.1, and its trend is
    "increasing". *)
Lemma zero_start_is_increasing :
  let forecast := ensembleForecast Examples.from_zero (Fin 0) 12 in
  Spec.equiv (predicted_risk (at_index forecast 0)) (Fin 0)
  /\ Spec.equiv (predicted_risk (at_index forecast 11)) (Fin 0.1)
  /\ calculateTrendDirection forecast = "increasing"%string.
Proof.
  split; [vm_compute; reflexivity|]. split; vm_compute; reflexivity.
Qed.

(** ** Claim C6: confidence over the horizon *)

Lemma of_nat_succ (i : nat) :
  (inject_Z (Z.of_nat (S i)) == inject_Z (Z.of_nat i) + 1)%Q.
Proof. rewrite Nat2Z.inj_succ. unfold Z.succ. rewrite inject_Z_plus. reflexivity. Qed.

Lemma of_nat_nonneg (i : nat) : (0 <= inject_Z (Z.of_nat i))%Q.
Proof. change 0%Q with (inject_Z 0). rewrite <- Zle_Qle. lia. Qed.

(** The confidence [Math.max(lo, hi - i * step)] as a function of the index. *)
Lemma decay_profile (lo hi step : Q) :
  (0 <= step)%Q -> (lo <= hi)%Q ->
  exists g : nat -> Q,
    (forall i, Math.max (Fin lo) (Fin hi - JS.of_nat i * Fin step)%js = Fin (g i))
    /\ (forall i, (lo <= g i)%Q /\ (g i <= hi)%Q)
    /\ (forall i, (g (S i) <= g i)%Q).
Proof.
  intros Hstep Hle.
  exists (fun i => if JS.Qltb lo (hi + - (inject_Z (Z.of_nat i) * step))
                   then (hi + - (inject_Z (Z.of_nat i) * step))%Q else lo).
  split; [|split].
  - intros i. unfold Math.max, JS.of_nat. cbn [JS.mul JS.sub JS.neg JS.add JS.lt].
    destruct (JS.Qltb _ _); reflexivity.
  - intros i. pose proof (of_nat_nonneg i).
    assert (0 <= inject_Z (Z.of_nat i) * step)%Q by (apply Qmult_le_0_compat; assumption).
    qcases; lra.
  - intros i. pose proof (of_nat_succ i) as Hs. pose proof (of_nat_nonneg i).
    set (x := inject_Z (Z.of_nat (S i))) in *.
    set (y := inject_Z (Z.of_nat i)) in *.
    assert (x * step == y * step + step)%Q by (rewrite Hs; ring).
    qcases; lra.
Qed.

Lemma Sorted_map_seq {A : Type} (R : A -> A -> Prop) (f : nat -> A) (a n : nat) :
  (forall i, R (f i) (f (S i))) -> Sorted R (map f (seq a n)).
Proof.
  intros H. revert a. induction n as [|n IH]; intros a; [constructor|].
  cbn [seq map]. constructor; [apply IH|].
  destruct n; cbn [seq map]; constructor. apply H.
Qed.

Lemma Forall_map_seq {A : Type} (P : A -> Prop) (f : nat -> A) (a n : nat) :
  (forall i, P (f i)) -> Forall P (map f (seq a n)).
Proof. intros H. apply Forall_map, Forall_forall. intros i _. apply H. Qed.

Lemma decays_of_profile (preds : list prediction) (n : nat) (g : nat -> Q)
    (lo hi : Q) :
  map confidence preds = map (fun i => Fin (g i)) (seq 0 n) ->
  (0 < lo)%Q -> (hi <= 1)%Q ->
  (forall i, (lo <= g i)%Q /\ (g i <= hi)%Q) ->
  (forall i, (g (S i) <= g i)%Q) ->
  Spec.confidence_decays preds.
Proof.
  intros Hmap Hlo Hhi Hrange Hstep. unfold Spec.confidence_decays.
  rewrite Hmap. split.
  - apply Sorted_map_seq. intros i. simpl. apply Qle_bool_iff, Hstep.
  - apply Forall_map_seq. intros i. destruct (Hrange i). simpl. split.
    + apply Qltb_true. lra.
    + apply Qle_bool_iff. lra.
Qed.

Lemma map_confidence_array_from (n : nat) (f : nat -> prediction) :
  map confidence (array_from n f) = map (fun i => confidence (f i)) (seq 0 n).
Proof. unfold array_from. apply map_map. Qed.

Lemma static_confidence (cur : num) (n : nat) :
  exists g : nat -> Q,
    map confidence (generateStaticForecast cur n)
    = map (fun i => Fin (g i)) (seq 0 n)
    /\ (forall i, (0.3 <= g i)%Q /\ (g i <= 0.9)%Q)
    /\ (forall i, (g (S i) <= g i)%Q).
Proof.
  destruct (decay_profile 0.3 0.8 0.05) as (g & Hg & Hr & Hs); try lra.
  exists g. split; [|split; [|assumption]].
  - unfold generateStaticForecast. rewrite map_confidence_array_from.
    apply map_ext. intros i. cbn [confidence]. apply Hg.
  - intros i. destruct (Hr i). lra.
Qed.

Lemma linear_confidence (h : list point) (cur : num) (n : nat) :
  exists g : nat -> Q,
    map confidence (linearRegressionForecast h cur n)
    = map (fun i => Fin (g i)) (seq 0 n)
    /\ (forall i, (0.3 <= g i)%Q /\ (g i <= 0.9)%Q)
    /\ (forall i, (g (S i) <= g i)%Q).
Proof.
  unfold linearRegressionForecast.
  destruct (length h <? 2)%nat; [apply static_confidence|].
  destruct (calculateLinearRegression h) as [slope intercept].
  destruct (decay_profile 0.3 0.9 0.1) as (g & Hg & Hr & Hs); try lra.
  exists g. split; [|split; assumption].
  rewrite map_confidence_array_from.
  apply map_ext. intros i. cbn [confidence]. apply Hg.
Qed.

Lemma smoothing_confidence (h : list point) (cur : num) (n : nat) :
  exists g : nat -> Q,
    map confidence (exponentialSmoothingForecast h cur n)
    = map (fun i => Fin (g i)) (seq 0 n)
    /\ (forall i, (0.4 <= g i)%Q /\ (g i <= 0.85)%Q)
    /\ (forall i, (g (S i) <= g i)%Q).
Proof.
  destruct (decay_profile 0.4 0.85 0.08) as (g & Hg & Hr & Hs); try lra.
  exists g. split; [|split; assumption].
  unfold exponentialSmoothingForecast. rewrite map_confidence_array_from.
  apply map_ext. intros i. cbn [confidence]. apply Hg.
Qed.

Lemma arima_confidence (h : list point) (cur : num) (n : nat) :
  exists g : nat -> Q,
    map confidence (arimaForecast h cur n)
    = map (fun i => Fin (g i)) (seq 0 n)
    /\ (forall i, (0.4 <= g i)%Q /\ (g i <= 0.9)%Q)
    /\ (forall i, (g (S i) <= g i)%Q).
Proof.
  unfold arimaForecast. destruct (length h <? 3)%nat.
  - destruct (smoothing_confidence h cur n) as (g & Hg & Hr & Hs).
    exists g. split; [assumption|]. split; [|assumption].
    intros i. destruct (Hr i). lra.
  - destruct (decay_profile 0.5 0.9 0.05) as (g & Hg & Hr & Hs); try lra.
    exists g. split; [|split; [|assumption]].
    + rewrite map_confidence_array_from.
      apply map_ext. intros i. cbn [confidence]. apply Hg.
    + intros i. destruct (Hr i). lra.
Qed.

Lemma at_index_confidence (preds : list prediction) (n : nat) (g : nat -> Q)
    (i : nat) :
  map confidence preds = map (fun i => Fin (g i)) (seq 0 n) ->
  (i < n)%nat -> confidence (at_index preds i) = Fin (g i).
Proof.
  intros Hmap Hi. unfold at_index.
  rewrite <- (map_nth confidence). rewrite Hmap.
  rewrite (nth_indep _ _ (Fin (g 0%nat))) by (rewrite length_map, length_seq; lia).
  rewrite (map_nth (fun i => Fin (g i))), seq_nth by lia. reflexivity.
Qed.

Lemma ensemble_confidence (h : list point) (cur : num) (n : nat) :
  exists g : nat -> Q,
    map confidence (ensembleForecast h cur n)
    = map (fun i => Fin (g i)) (seq 0 n)
    /\ (forall i, (0.365 <= g i)%Q /\ (g i <= 0.89)%Q)
    /\ (forall i, (g (S i) <= g i)%Q).
Proof.
  destruct (linear_confidence h cur n) as (gl & Hl & Hlr & Hls).
  destruct (smoothing_confidence h cur n) as (ge & He & Her & Hes).
  destruct (arima_confidence h cur n) as (ga & Ha & Har & Has).
  exists (fun i => JS.toFixedQ 2 (gl i * 0.3 + ge i * 0.3 + ga i * 0.4)).
  split; [|split].
  - unfold ensembleForecast. rewrite map_confidence_array_from.
    apply map_ext_in. intros i Hi. apply in_seq in Hi. cbn [confidence].
    rewrite (at_index_confidence _ n gl i Hl), (at_index_confidence _ n ge i He),
      (at_index_confidence _ n ga i Ha) by lia.
    reflexivity.
  - intros i. destruct (Hlr i), (Her i), (Har i).
    pose proof (toFixedQ_error 2 (gl i * 0.3 + ge i * 0.3 + ga i * 0.4)) as [E1 E2].
    change (inject_Z (Z.pos (JS.pow10 2))) with 100%Q in E1, E2.
    lra.
  - intros i. apply toFixedQ_mono.
    pose proof (Hls i). pose proof (Hes i). pose proof (Has i). lra.
Qed.

(** C6.  For the linear trend, the exponential smoothing, the damped
    autoregressive model and the ensemble, on every input, the confidence
    never increases from one period to the next and every confidence lies in
    (0, 1]. *)
Theorem confidence_monotone (historicalData : list point) (currentRisk : num)
    (timeSteps : nat) :
  Spec.confidence_decays (linearRegressionForecast historicalData currentRisk timeSteps)
  /\ Spec.confidence_decays (exponentialSmoothingForecast historicalData currentRisk timeSteps)
  /\ Spec.confidence_decays (arimaForecast historicalData currentRisk timeSteps)
  /\ Spec.confidence_decays (ensembleForecast historicalData currentRisk timeSteps).
Proof.
  split; [|split; [|split]].
  - destruct (linear_confidence historicalData currentRisk timeSteps) as (g & Hg & Hr & Hs).
    apply (decays_of_profile _ timeSteps g 0.3 0.9); auto; lra.
  - destruct (smoothing_confidence historicalData currentRisk timeSteps) as (g & Hg & Hr & Hs).
    apply (decays_of_profile _ timeSteps g 0.4 0.85); auto; lra.
  - destruct (arima_confidence historicalData currentRisk timeSteps) as (g & Hg & Hr & Hs).
    apply (decays_of_profile _ timeSteps g 0.4 0.9); auto; lra.
  - destruct (ensemble_confidence historicalData currentRisk timeSteps) as (g & Hg & Hr & Hs).
    apply (decays_of_profile _ timeSteps g 0.365 0.89); auto; lra.
Qed.

(** ** Sums of finite numbers *)

Lemma fold_left_total {A : Type} (f : A -> Q) (l : list A) (acc : Q) :
  (fold_left (fun a d => a + f d) l acc == acc + Spec.total (map f l))%Q.
Proof.
  revert acc. induction l as [|d l IH]; intros acc; cbn [fold_left map Spec.total].
  - ring.
  - rewrite IH. ring.
Qed.

Lemma reduce_sum_finite (g : point -> num) (data : list point) :
  Forall (fun d => JS.isFinite (g d) = true) data ->
  exists q, reduce_sum g data = Fin q
            /\ (q == Spec.total (map (fun d => Spec.value (g d)) data))%Q.
Proof.
  intros H. unfold reduce_sum.
  assert (G : forall acc,
    fold_left (fun sum d => (sum + g d)%js) data (Fin acc)
    = Fin (fold_left (fun a d => a + Spec.value (g d)) data acc)%Q).
  { induction H as [|d l Hd Hl IH]; intros acc; [reflexivity|].
    cbn [fold_left]. apply isFinite_Fin in Hd. destruct Hd as [q Hq].
    rewrite Hq. cbn [JS.add Spec.value]. apply IH. }
  eexists. split; [apply G|]. rewrite fold_left_total. ring.
Qed.


(** ** The denominator of the least-squares fit *)

Lemma Qsquare_nonneg (a : Q) : (0 <= a * a)%Q.
Proof.
  destruct (Qlt_le_dec a 0) as [H|H].
  - assert (E : (a * a == (- a) * (- a))%Q) by ring.
    rewrite E. apply Qmult_le_0_compat; lra.
  - apply Qmult_le_0_compat; assumption.
Qed.

Lemma Qsquare_pos (a : Q) : (0 < a)%Q -> (0 < a * a)%Q.
Proof. intros H. apply Qmult_lt_0_compat; assumption. Qed.

Lemma length_succ_Q {A : Type} (x : A) (l : list A) :
  (inject_Z (Z.of_nat (length (x :: l))) == inject_Z (Z.of_nat (length l)) + 1)%Q.
Proof. cbn [length]. rewrite Nat2Z.inj_succ. unfold Z.succ. rewrite inject_Z_plus. reflexivity. Qed.

Lemma squares_around (x : Q) (l : list Q) :
  (Spec.total (map (fun y => (y - x) * (y - x)) l)
   == Spec.total (map (fun y => y * y) l) - 2 * x * Spec.total l
      + inject_Z (Z.of_nat (length l)) * x * x)%Q.
Proof.
  induction l as [|y l IH].
  - cbn. ring.
  - rewrite length_succ_Q. cbn [map Spec.total]. rewrite IH. ring.
Qed.

Lemma squares_nonneg (x : Q) (l : list Q) :
  (0 <= Spec.total (map (fun y => (y - x) * (y - x)) l))%Q.
Proof.
  induction l as [|y l IH]; cbn [map Spec.total]; [lra|].
  pose proof (Qsquare_nonneg (y - x)). lra.
Qed.

Lemma spread_cons (x : Q) (l : list Q) :
  (inject_Z (Z.of_nat (length (x :: l))) * Spec.total (map (fun y => y * y) (x :: l))
   - Spec.total (x :: l) * Spec.total (x :: l)
   == (inject_Z (Z.of_nat (length l)) * Spec.total (map (fun y => y * y) l)
       - Spec.total l * Spec.total l)
      + Spec.total (map (fun y => (y - x) * (y - x)) l))%Q.
Proof.
  rewrite squares_around, length_succ_Q. cbn [map Spec.total]. ring.
Qed.

Lemma spread_nonneg (l : list Q) :
  (0 <= inject_Z (Z.of_nat (length l)) * Spec.total (map (fun y => y * y) l)
        - Spec.total l * Spec.total l)%Q.
Proof.
  induction l as [|x l IH].
  - cbn. lra.
  - rewrite spread_cons. pose proof (squares_nonneg x l). lra.
Qed.

Lemma spread_positive (x y : Q) (l : list Q) :
  (x < y)%Q ->
  (0 < inject_Z (Z.of_nat (length (x :: y :: l)))
       * Spec.total (map (fun y => y * y) (x :: y :: l))
       - Spec.total (x :: y :: l) * Spec.total (x :: y :: l))%Q.
Proof.
  intros H. rewrite spread_cons.
  pose proof (spread_nonneg (y :: l)).
  cbn [map Spec.total] in *.
  pose proof (squares_nonneg x l).
  assert (0 < (y - x) * (y - x))%Q by (apply Qsquare_pos; lra). lra.
Qed.



(** ** Finite forecasts *)

Lemma finite_days (h : list point) :
  Forall Spec.finite_point h ->
  Forall (fun d => JS.isFinite (days_from_start d) = true) h.
Proof. intros H. induction H as [|d l [Hd _] Hl IH]; constructor; assumption. Qed.

Lemma finite_scores (h : list point) :
  Forall Spec.finite_point h ->
  Forall (fun d => JS.isFinite (risk_score_at_time d) = true) h.
Proof. intros H. induction H as [|d l [_ Hd] Hl IH]; constructor; assumption. Qed.

Lemma finite_product (f g : point -> num) (h : list point) :
  Forall (fun d => JS.isFinite (f d) = true) h ->
  Forall (fun d => JS.isFinite (g d) = true) h ->
  Forall (fun d => JS.isFinite (f d * g d)%js = true) h.
Proof.
  intros Hf Hg. induction Hf as [|d l Hd Hl IH]; [constructor|].
  inversion Hg as [|? ? Hgd Hgl]; subst. constructor; [|apply IH; assumption].
  apply isFinite_Fin in Hd, Hgd. destruct Hd as [x ->], Hgd as [y ->]. reflexivity.
Qed.












(** ** A history of one day *)

Lemma totals_of_one_day (h : list point) (x0 : Q) :
  Forall Spec.finite_point h ->
  (forall d, In d h -> days_from_start d = Fin x0) ->
  (Spec.total (map (fun d => Spec.value (days_from_start d)) h)
   == inject_Z (Z.of_nat (length h)) * x0)%Q
  /\ (Spec.total
        (map (fun d => Spec.value (days_from_start d * days_from_start d)%js) h)
      == inject_Z (Z.of_nat (length h)) * (x0 * x0))%Q
  /\ (Spec.total
        (map (fun d => Spec.value (days_from_start d * risk_score_at_time d)%js) h)
      == x0 * Spec.total (map (fun d => Spec.value (risk_score_at_time d)) h))%Q.
Proof.
  intros Hfin. induction Hfin as [|d l [_ Hd] Hl IH]; intros Hday.
  - cbn. repeat split; ring.
  - destruct IH as (I1 & I2 & I3); [intros e He; apply Hday; right; exact He|].
    assert (Ed : days_from_start d = Fin x0) by (apply Hday; left; reflexivity).
    apply isFinite_Fin in Hd. destruct Hd as [y Ey].
    rewrite length_succ_Q. cbn [map Spec.total]. rewrite Ed, Ey.
    cbn [JS.mul Spec.value]. rewrite I1, I2, I3. repeat split; ring.
Qed.

Lemma regression_of_one_day (h : list point) :
  Forall Spec.finite_point h -> Spec.same_day h ->
  calculateLinearRegression h = (NaN, NaN).
Proof.
  intros Hfin Hsame. unfold calculateLinearRegression.
  pose proof (finite_days h Hfin) as Hx. pose proof (finite_scores h Hfin) as Hy.
  destruct (reduce_sum_finite days_from_start h Hx) as (sx & -> & Esx).
  destruct (reduce_sum_finite risk_score_at_time h Hy) as (sy & -> & Esy).
  destruct (reduce_sum_finite _ h (finite_product _ _ h Hx Hy)) as (sxy & -> & Esxy).
  destruct (reduce_sum_finite _ h (finite_product _ _ h Hx Hx)) as (sxx & -> & Esxx).
  unfold JS.of_nat. cbn [JS.mul JS.sub JS.neg JS.add].
  assert (Hday : exists x0, forall d, In d h -> days_from_start d = Fin x0).
  { destruct h as [|a t]; [exists 0%Q; intros d []|].
    inversion Hx as [|? ? Fa _]; subst. apply isFinite_Fin in Fa.
    destruct Fa as [x0 E0]. exists x0. intros d Hd. rewrite <- E0.
    apply Hsame; [exact Hd | left; reflexivity]. }
  destruct Hday as [x0 Hday].
  destruct (totals_of_one_day h x0 Hfin Hday) as (T1 & T2 & T3).
  rewrite T1 in Esx. rewrite T2 in Esxx. rewrite T3, <- Esy in Esxy.
  assert (Hden : JS.Qzerob (inject_Z (Z.of_nat (length h)) * sxx + - (sx * sx)) = true).
  { apply Qzerob_true. rewrite Esx, Esxx. ring. }
  assert (Hnum : JS.Qzerob (inject_Z (Z.of_nat (length h)) * sxy + - (sx * sy)) = true).
  { apply Qzerob_true. rewrite Esx, Esxy. ring. }
  cbn [JS.div]. rewrite Hden, Hnum. reflexivity.
Qed.

Lemma le_NaN (x : num) : (x <=? NaN)%js = false.
Proof. destruct x; reflexivity. Qed.

(** ** The blend stays between its parts *)







(** ** Claim C5: the ensemble between its models *)





(** ** Claim C5: a history of one day *)

(** C5 (failing input).  For a historical series (finite values, strictly
    increasing timestamps) of two or more rows that all fall on one day, the
    least-squares slope is 0/0: every prediction of the linear model is
    [NaN], so is every blended value of the ensemble, whatever the current
    value, and the blended value is not between the least and the greatest
    of the three models' values. *)
Theorem same_day_history_breaks_blend (rows : list (Z * num))
    (currentRisk : num) (timeSteps i : nat) :
  Spec.series rows -> (2 <= length rows)%nat ->
  Spec.same_day (getHistoricalRiskData rows) ->
  (i < timeSteps)%nat ->
  let historicalData := getHistoricalRiskData rows in
  let linear :=
    predicted_risk
      (at_index (linearRegressionForecast historicalData currentRisk timeSteps) i) in
  let smoothing :=
    predicted_risk
      (at_index (exponentialSmoothingForecast historicalData currentRisk timeSteps) i) in
  let damped :=
    predicted_risk
      (at_index (arimaForecast historicalData currentRisk timeSteps) i) in
  let blended :=
    predicted_risk
      (at_index (ensembleForecast historicalData currentRisk timeSteps) i) in
  linear = NaN
  /\ blended = NaN
  /\ ~ Spec.between (Math.min linear (Math.min smoothing damped))
                    blended
                    (Math.max linear (Math.max smoothing damped)).
Proof.
  intros [Hscores _] Hlen Hsame Hi historicalData linear smoothing damped blended.
  assert (Hfin : Forall Spec.finite_point historicalData).
  { subst historicalData. unfold getHistoricalRiskData.
    clear Hlen Hsame. induction Hscores as [|row l Hrow Hl IH]; [constructor|].
    cbn [map]. constructor; [|exact IH]. split; [reflexivity | exact Hrow]. }
  assert (Hl : linear = NaN).
  { subst linear. unfold linearRegressionForecast.
    assert (E : (length historicalData <? 2)%nat = false).
    { apply Nat.ltb_ge. subst historicalData. unfold getHistoricalRiskData.
      rewrite length_map. exact Hlen. }
    rewrite E, (regression_of_one_day historicalData Hfin Hsame).
    rewrite at_index_array_from by assumption. reflexivity. }
  assert (Hb : blended = NaN).
  { subst blended. unfold ensembleForecast.
    rewrite at_index_array_from by assumption. cbn [predicted_risk].
    fold linear. rewrite Hl. reflexivity. }
  split; [exact Hl|]. split; [exact Hb|].
  intros [H _]. rewrite Hb, le_NaN in H. discriminate.
Qed.

Lemma same_day_history_breaks_blend_witness :
  let historicalData := getHistoricalRiskData Examples.two_on_one_day in
  let linear :=
    predicted_risk (at_index (linearRegressionForecast historicalData (Fin 62) 3) 0) in
  let smoothing :=
    predicted_risk
      (at_index (exponentialSmoothingForecast historicalData (Fin 62) 3) 0) in
  let damped :=
    predicted_risk (at_index (arimaForecast historicalData (Fin 62) 3) 0) in
  let blended :=
    predicted_risk (at_index (ensembleForecast historicalData (Fin 62) 3) 0) in
  linear = NaN
  /\ blended = NaN
  /\ ~ Spec.between (Math.min linear (Math.min smoothing damped))
                    blended
                    (Math.max linear (Math.max smoothing damped)).
Proof.
  apply (same_day_history_breaks_blend Examples.two_on_one_day (Fin 62) 3 0).
  - split; repeat constructor.
  - cbn. lia.
  - intros a b [<- | [<- | []]] [<- | [<- | []]]; reflexivity.
  - lia.
Defined.

(** ** Further properties of the scenario endpoint *)

Lemma scenarioHandler_not_rejected v db :
  forall code, fst (Server.scenarioHandler v db) <> Server.BadRequest code.
Proof.
  intros code. unfold Server.scenarioHandler.
  destruct (if negb _ then _ else _); cbn; discriminate.
Qed.

(** A request answered with 400 leaves every table as it was, and a request
    is answered with 400 exactly when validation fails. *)
Theorem rejected_request_changes_nothing (body : Server.request)
    (db db' : Server.database) (code : string) :
  Server.postScenario body db = (Server.BadRequest code, db') ->
  db' = db /\ Server.validateScenarioData body = inl code.
Proof.
  unfold Server.postScenario.
  destruct (Server.validateScenarioData body) as [c|v] eqn:E.
  - intros H. injection H as <- <-. auto.
  - intros H. exfalso.
    apply (scenarioHandler_not_rejected v db code). rewrite H. reflexivity.
Qed.

Lemma rejected_request_changes_nothing_witness :
  let body := Server.mkRequest (Some 1%Z) (Some "raise")
                (Some (Server.mkChange false None (Num (Fin (-5))) Undefined
                         Undefined Undefined Undefined)) in
  let db := Examples.database_of 1 Examples.florida in
  db = db /\ Server.validateScenarioData body = inl "INVALID_DEDUCTIBLE".
Proof.
  intros body db.
  apply (rejected_request_changes_nothing body db db "INVALID_DEDUCTIBLE").
  vm_compute. reflexivity.
Defined.

(** ** What validation lets through *)







Lemma validated_increase_range (body : Server.request)
    (v : Server.validatedScenario) :
  Server.validateScenarioData body = inr v ->
  Server.increase_deductible (Server.change_json v) = Undefined
  \/ exists q, Server.increase_deductible (Server.change_json v) = Num (Fin q)
               /\ (0 <= q <= 10000)%Q.
Proof.
  unfold Server.validateScenarioData. intros H.
  destruct (Server.req_customer_id body) as [id|]; [|discriminate].
  destruct (id =? 0)%Z eqn:E0; [discriminate|].
  destruct (id <=? 0)%Z eqn:E1; [discriminate|].
  destruct (Server.req_name body) as [name|]; [|discriminate].
  destruct (String.eqb name "") eqn:En; [discriminate|].
  destruct (255 <? String.length name)%nat eqn:El; [discriminate|].
  destruct (Server.req_change_json body) as [c|]; [|discriminate].
  destruct (Server.truthy_str (Server.move_state c)
            && negb (Server.validateStateCode (default "" (Server.move_state c))))
    eqn:Es; [discriminate|].
  cbv zeta in H.
  destruct (match Server.increase_deductible c with
            | Undefined => false
            | _ => _ end) eqn:Ed; [discriminate|].
  injection H as <-. cbn [Server.change_json].
  destruct (Server.increase_deductible c) as [| |[q| | |]]; cbn in Ed;
    try discriminate; [left; reflexivity|].
  right. exists q. split; [reflexivity|].
  apply orb_false_iff in Ed. destruct Ed as [Ed Hhi].
  unfold JS.gt, JS.lt in *. apply Qltb_false in Ed, Hhi. lra.
Qed.



(** A name of blanks is accepted and stored as the empty string. *)
Lemma blank_name_is_stored_empty :
  exists v,
    Server.validateScenarioData
      (Server.mkRequest (Some 1%Z) (Some "  ") (Some Server.empty_change))
    = inr v
    /\ Server.scenario_title v = "".
Proof. eexists. split; [vm_compute; reflexivity | reflexivity]. Qed.

(** A negative, oversized or non-numeric increase is refused before any write. *)
Theorem negative_increase_is_rejected (body : Server.request)
    (db : Server.database) (c : Server.change) (q : Q) :
  Server.req_change_json body = Some c ->
  Server.increase_deductible c = Num (Fin q) ->
  (q < 0)%Q \/ (10000 < q)%Q ->
  exists code, Server.postScenario body db = (Server.BadRequest code, db).
Proof.
  intros Hc Hinc Hq. unfold Server.postScenario.
  destruct (Server.validateScenarioData body) as [code|v] eqn:E; [eauto|].
  exfalso.
  destruct (validate_keeps_change _ _ E) as [Hv _].
  rewrite Hc in Hv. injection Hv as Hv.
  destruct (validated_increase_range _ _ E) as [Hu | (q' & Hq' & Hr)].
  - rewrite <- Hv, Hinc in Hu. discriminate.
  - rewrite <- Hv, Hinc in Hq'. injection Hq' as <-. lra.
Qed.

Lemma negative_increase_is_rejected_witness :
  exists code,
    Server.postScenario
      (Server.mkRequest (Some 1%Z) (Some "raise")
         (Some (Server.mkChange false None (Num (Fin (-5))) Undefined
                                Undefined Undefined Undefined)))
      (Examples.database_of 1 Examples.florida)
    = (Server.BadRequest code, Examples.database_of 1 Examples.florida).
Proof.
  apply (negative_increase_is_rejected _ _
           (Server.mkChange false None (Num (Fin (-5))) Undefined
                            Undefined Undefined Undefined) (-5)).
  - reflexivity.
  - reflexivity.
  - left. reflexivity.
Defined.

(** ** Further properties of the deductible memory *)

Lemma impactedTwin_name (customer : Server.twin) (c : Server.change) :
  Server.name (Server.impactedTwin customer c) = Server.name customer.
Proof.
  unfold Server.impactedTwin.
  destruct (Server.scaledValues customer c) as [[x y] z]. reflexivity.
Qed.

Lemma impactedTwin_state (customer : Server.twin) (c : Server.change) :
  Server.state (Server.impactedTwin customer c)
  = if Server.truthy_str (Server.move_state c)
    then default ""%string (Server.move_state c)
    else Server.state customer.
Proof.
  unfold Server.impactedTwin.
  destruct (Server.scaledValues customer c) as [[x y] z]. reflexivity.
Qed.

Lemma validated_state (body : Server.request) (v : Server.validatedScenario) :
  Server.validateScenarioData body = inr v ->
  Server.truthy_str (Server.move_state (Server.change_json v)) = true ->
  Server.validateStateCode
    (default ""%string (Server.move_state (Server.change_json v))) = true.
Proof.
  unfold Server.validateScenarioData. intros H.
  destruct (Server.req_customer_id body) as [id|]; [|discriminate].
  destruct (id =? 0)%Z; [discriminate|].
  destruct (id <=? 0)%Z; [discriminate|].
  destruct (Server.req_name body) as [name|]; [|discriminate].
  destruct (String.eqb name ""); [discriminate|].
  destruct (255 <? String.length name)%nat; [discriminate|].
  destruct (Server.req_change_json body) as [c|]; [|discriminate].
  destruct (Server.truthy_str (Server.move_state c)
            && negb (Server.validateStateCode (default "" (Server.move_state c))))
    eqn:Es; [discriminate|].
  cbv zeta in H.
  destruct (match Server.increase_deductible c with
            | Undefined => false
            | _ => _ end); [discriminate|].
  injection H as <-. cbn [Server.change_json]. intros Ht.
  rewrite Ht in Es. cbn [andb] in Es. apply negb_false_iff in Es. exact Es.
Qed.

Lemma initialize_baseline (t : Server.twin) :
  Server.name t <> "Carlos Ramirez" ->
  JS.own_only (Server.state t) = true ->
  Dashboard.initializeDeductibleHistory t = {[ Server.state t := Fin 1500 ]}.
Proof.
  intros Hname Hown. unfold Dashboard.initializeDeductibleHistory.
  apply String.eqb_neq in Hname. rewrite Hname.
  rewrite set_own by assumption. reflexivity.
Qed.

Lemma postScenario_keeps_customer (body : Server.request) (db : Server.database)
    (id : Z) (t : Server.twin) :
  Server.req_customer_id body = Some id ->
  Server.twins db !! id = Some t ->
  exists t', Server.twins (snd (Server.postScenario body db)) !! id = Some t'
             /\ Server.name t' = Server.name t
             /\ (JS.own_only (Server.state t) = true ->
                 JS.own_only (Server.state t') = true).
Proof.
  intros Hid Hrow. unfold Server.postScenario.
  destruct (Server.validateScenarioData body) as [code|v] eqn:E; [eauto|].
  destruct (validate_keeps_change _ _ E) as [_ Hv].
  rewrite Hid in Hv. injection Hv as Hv.
  unfold Server.scenarioHandler. rewrite <- Hv.
  destruct (negb (Server.no_change (Server.change_json v))).
  - unfold Server.applyScenarioImpact.
    cbn [Server.twins Server.scenarios Server.timeline_events].
    rewrite Hrow. cbn [snd Server.twins]. eexists.
    split; [apply lookup_insert_eq|].
    split; [apply impactedTwin_name|].
    intros Hown. rewrite impactedTwin_state.
    destruct (Server.truthy_str (Server.move_state (Server.change_json v)))
      eqn:Ht; [|exact Hown].
    apply valid_code_own. apply (validated_state body v E Ht).
  - cbn [snd Server.twins]. eauto.
Qed.

(** Whatever a call recorded while it prepared the request, for a customer
    without preset history (in a state with an ordinary name) it leaves a
    ledger with one entry: 1500 under the state of the reloaded customer. *)
Theorem call_leaves_baseline_ledger (db : Server.database)
    (hist : gmap string num) (id : Z) (t : Server.twin) (s : string) (d : num)
    (action name : string) (a : Dashboard.application) :
  Server.twins db !! id = Some t ->
  Server.name t <> "Carlos Ramirez" ->
  JS.own_only (Server.state t) = true ->
  Dashboard.apply db hist id s d action name = Some a ->
  exists t', Dashboard.twin_after a = Some t'
             /\ Server.twins (Dashboard.db_after a) !! id = Some t'
             /\ Server.name t' = Server.name t
             /\ Dashboard.ledger_after a = {[ Server.state t' := Fin 1500 ]}.
Proof.
  intros Hrow Hname Hown H. apply apply_unfold in H.
  destruct H as (t0 & Ht0 & Hid & ->).
  rewrite Hrow in Ht0. injection Ht0 as <-.
  cbn [Dashboard.twin_after Dashboard.db_after Dashboard.ledger_after].
  destruct (postScenario_keeps_customer
              (Server.mkRequest (Some id) (Some name)
                 (Some (Dashboard.wire
                          (Dashboard.posted
                             (Dashboard.applyScenario hist t s d action)))))
              db id t eq_refl Hrow) as (t' & Ht' & Hn & Hstate).
  exists t'. unfold Dashboard.loadTwin. rewrite Ht'. cbn [fst snd].
  split; [reflexivity|]. split; [reflexivity|]. split; [exact Hn|].
  apply initialize_baseline; [rewrite Hn; exact Hname | auto].
Qed.

Lemma call_leaves_baseline_ledger_witness :
  exists a t',
    Dashboard.apply (Examples.database_of 1 Examples.texas)
      {[ "TX" := Fin 1500 ]} 1 "CA" (Fin 500) "increase"
      "What-if: move to CA + $500 deductible" = Some a
    /\ Dashboard.twin_after a = Some t'
    /\ Server.twins (Dashboard.db_after a) !! 1%Z = Some t'
    /\ Server.name t' = Server.name Examples.texas
    /\ Dashboard.ledger_after a = {[ Server.state t' := Fin 1500 ]}.
Proof.
  eexists.
  assert (E : Dashboard.apply (Examples.database_of 1 Examples.texas)
                {[ "TX" := Fin 1500 ]} 1 "CA" (Fin 500) "increase"
                "What-if: move to CA + $500 deductible" = Some _)
    by (vm_compute; reflexivity).
  assert (R : Server.twins (Examples.database_of 1 Examples.texas) !! 1%Z
              = Some Examples.texas) by reflexivity.
  assert (N : Server.name Examples.texas <> "Carlos Ramirez") by discriminate.
  assert (O : JS.own_only (Server.state Examples.texas) = true) by reflexivity.
  destruct (call_leaves_baseline_ledger _ _ _ _ _ _ _ _ _ R N O E) as (t' & H).
  exists t'. split; [exact E | exact H].
Defined.

(** On a page that has loaded a customer without preset history, no
    scenario posts a [restore_deductible]: the ledger then has an entry for
    the current state only, so the branch that restores a remembered
    deductible is never taken. *)
Theorem restore_needs_preset_history (t : Server.twin) (s : string) (d : num)
    (action : string) :
  Server.name t <> "Carlos Ramirez" ->
  JS.own_only s = true ->
  Server.restore_deductible
    (Dashboard.posted
       (Dashboard.applyScenario (Dashboard.initializeDeductibleHistory t) t s d
                                action))
  = Undefined.
Proof.
  intros Hname Hs.
  assert (Hnone : s <> Server.state t ->
            JS.has_truthy (Dashboard.initializeDeductibleHistory t) s = false).
  { intros Hne. unfold JS.has_truthy. rewrite get_own_only by assumption.
    unfold Dashboard.initializeDeductibleHistory, JS.set.
    apply String.eqb_neq in Hname. rewrite Hname.
    destruct (String.eqb (Server.state t) "__proto__").
    - rewrite lookup_empty. reflexivity.
    - rewrite lookup_insert_ne by congruence. rewrite lookup_empty. reflexivity. }
  unfold Dashboard.applyScenario, Dashboard.adjustDeductible.
  destruct (String.eqb s "") eqn:Es; cbn [negb].
  - destruct (d >? Fin 0)%js; reflexivity.
  - destruct (String.eqb s (Server.state t)) eqn:Est.
    + repeat match goal with
             | |- context [if ?b then _ else _] => destruct b
             end; reflexivity.
    + apply String.eqb_neq in Est. rewrite (Hnone Est). cbn [andb].
      destruct (d >? Fin 0)%js; reflexivity.
Qed.

Lemma restore_needs_preset_history_witness :
  Server.restore_deductible
    (Dashboard.posted
       (Dashboard.applyScenario
          (Dashboard.initializeDeductibleHistory Examples.texas) Examples.texas
          "CA" (Fin 0) "increase"))
  = Undefined.
Proof.
  apply (restore_needs_preset_history Examples.texas "CA" (Fin 0) "increase").
  - discriminate.
  - reflexivity.
Defined.

(** The deductibles in the ledger stay finite and never go below 0. *)
Theorem ledger_stays_nonnegative (hist : gmap string num) (t : Server.twin)
    (s : string) (d : num) (action : string) :
  JS.own_only s = true -> JS.own_only (Server.state t) = true ->
  map_Forall (fun _ v => exists q, v = Fin q /\ (0 <= q)%Q) hist ->
  JS.isFinite d = true ->
  map_Forall (fun _ v => exists q, v = Fin q /\ (0 <= q)%Q)
             (Dashboard.history (Dashboard.applyScenario hist t s d action)).
Proof.
  intros Hs Hst Hinv Hd. apply isFinite_Fin in Hd. destruct Hd as [dq ->].
  assert (Hlook : forall k, JS.own_only k = true -> exists q,
             JS.lookup_or hist k (Fin 0) = Fin q /\ (0 <= q)%Q).
  { intros k Hk. unfold JS.lookup_or. rewrite get_own_only by assumption.
    destruct (hist !! k) as [v|] eqn:E.
    - destruct (Hinv k v E) as (q & -> & Hq). destruct (JS.truthy (Fin q)).
      + eauto.
      + exists 0%Q. split; [reflexivity | lra].
    - exists 0%Q. split; [reflexivity | lra]. }
  assert (Hset : forall k v,
             (exists q, v = Fin q /\ (0 <= q)%Q) ->
             map_Forall (fun _ v => exists q, v = Fin q /\ (0 <= q)%Q)
                        (JS.set hist k v)).
  { intros k v Hv. unfold JS.set. destruct (String.eqb k "__proto__");
      [exact Hinv | apply map_Forall_insert_2; assumption]. }
  assert (Hadj : forall c from to,
             JS.own_only from = true ->
             (Fin dq >? Fin 0)%js = true ->
             map_Forall (fun _ v => exists q, v = Fin q /\ (0 <= q)%Q)
               (Dashboard.history
                  (Dashboard.adjustDeductible hist c from to (Fin dq) action))).
  { intros c from to Hfrom Hpos. unfold Dashboard.adjustDeductible.
    cbn [Dashboard.history]. apply Hset.
    destruct (Hlook from Hfrom) as (q & -> & Hq).
    unfold JS.gt, JS.lt in Hpos. apply Qltb_true in Hpos.
    destruct (String.eqb action "increase").
    - exists (q + dq)%Q. split; [reflexivity | lra].
    - cbn [JS.sub JS.neg JS.add].
      destruct (max_Fin 0 (q + - dq)) as (r & -> & Hr & _). eauto. }
  unfold Dashboard.applyScenario.
  destruct (String.eqb s ""); cbn [negb].
  - destruct (Fin dq >? Fin 0)%js eqn:Hpos; [|exact Hinv].
    apply Hadj; [|reflexivity].
    destruct (String.eqb (Server.state t) ""); [reflexivity | exact Hst].
  - destruct (String.eqb s (Server.state t)).
    + destruct (_ && _); [exact Hinv|].
      destruct (Fin dq >? Fin 0)%js eqn:Hpos; [|exact Hinv].
      apply Hadj; [exact Hs | reflexivity].
    + destruct (_ && _); [exact Hinv|].
      destruct (Fin dq >? Fin 0)%js eqn:Hpos;
        [apply Hadj; [exact Hst | reflexivity]|].
      cbn [Dashboard.history]. apply Hset.
      apply Hlook. exact Hst.
Qed.

Lemma ledger_stays_nonnegative_witness :
  map_Forall (fun _ v => exists q, v = Fin q /\ (0 <= q)%Q)
    (Dashboard.history
       (Dashboard.applyScenario {[ "TX" := Fin 1500 ]} Examples.texas "TX"
          (Fin 2000) "decrease")).
Proof.
  apply (ledger_stays_nonnegative {[ "TX" := Fin 1500 ]} Examples.texas "TX"
           (Fin 2000) "decrease").
  - reflexivity.
  - reflexivity.
  - apply map_Forall_singleton. exists 1500%Q. split; [reflexivity|].
    discriminate.
  - reflexivity.
Defined.

(** A freshly loaded customer (other than the one with a preset history) has
    the onboarding deductible of 1500 recorded for the current state only,
    so selecting the current state with no amount is reported as no change
    and leaves the ledger alone. *)
Theorem fresh_history_makes_reselection_a_no_op (t : Server.twin)
    (action : string) :
  Server.name t <> "Carlos Ramirez" -> Server.state t <> "" ->
  JS.own_only (Server.state t) = true ->
  let hist := Dashboard.initializeDeductibleHistory t in
  let out := Dashboard.applyScenario hist t (Server.state t) (Fin 0) action in
  hist = {[ Server.state t := Fin 1500 ]}
  /\ Dashboard.isNoChange out = true
  /\ Server.no_change (Dashboard.posted out) = true
  /\ Dashboard.history out = hist.
Proof.
  intros Hname Hstate Hown hist out.
  assert (Hh : hist = {[ Server.state t := Fin 1500 ]}).
  { subst hist. apply initialize_baseline; assumption. }
  split; [assumption|].
  subst out. unfold Dashboard.applyScenario.
  apply String.eqb_neq in Hstate. rewrite Hstate, String.eqb_refl.
  unfold JS.has_truthy, JS.get. rewrite Hh, lookup_singleton_eq. cbn. auto.
Qed.

Lemma fresh_history_makes_reselection_a_no_op_witness :
  let hist := Dashboard.initializeDeductibleHistory Examples.texas in
  let out := Dashboard.applyScenario hist Examples.texas "TX" (Fin 0) "increase" in
  hist = {[ "TX" := Fin 1500 ]}
  /\ Dashboard.isNoChange out = true
  /\ Server.no_change (Dashboard.posted out) = true
  /\ Dashboard.history out = hist.
Proof.
  apply (fresh_history_makes_reselection_a_no_op Examples.texas "increase");
    [discriminate | discriminate | reflexivity].
Defined.

(** ** Further properties of the scenario impact *)

Lemma bounds_Fin (lo x hi : num) :
  JS.isFinite x = true -> Spec.between lo x hi ->
  exists q, x = Fin q
            /\ (forall l, lo = Fin l -> (l <= q)%Q)
            /\ (forall h, hi = Fin h -> (q <= h)%Q).
Proof.
  intros Hx [H1 H2]. apply isFinite_Fin in Hx. destruct Hx as [q ->].
  exists q. split; [reflexivity|]. split.
  - intros l ->. apply Qle_bool_iff. exact H1.
  - intros h ->. apply Qle_bool_iff. exact H2.
Qed.

Lemma clamp_cases (lo hi q : Q) :
  (lo <= hi)%Q ->
  exists r, Math.max (Fin lo) (Math.min (Fin hi) (Fin q)) = Fin r
            /\ ((q <= lo)%Q /\ r = lo
                \/ (hi <= q)%Q /\ (r == hi)%Q
                \/ (lo <= q)%Q /\ (q <= hi)%Q /\ (r == q)%Q).
Proof.
  intros Hle.
  destruct (min_Fin hi q) as (m & -> & Hm1 & Hm2 & Hm).
  destruct (max_Fin lo m) as (r & -> & Hr1 & Hr2 & Hr).
  exists r. split; [reflexivity|].
  destruct (Qlt_le_dec q lo) as [H|H].
  - left. split; [lra|]. destruct Hr as [-> | ->]; [reflexivity|].
    destruct Hm as [-> | ->]; exfalso; lra.
  - destruct (Qlt_le_dec hi q) as [H'|H'].
    + right. left. split; [lra|]. destruct Hr as [-> | ->]; destruct Hm as [-> | ->]; lra.
    + right. right. split; [lra|]. split; [lra|].
      destruct Hr as [-> | ->]; destruct Hm as [-> | ->]; lra.
Qed.

Lemma floor_cases (q : Q) :
  exists r, Math.max (Fin 0) (Fin q) = Fin r
            /\ ((q <= 0)%Q /\ (r == 0)%Q \/ (0 <= q)%Q /\ (r == q)%Q).
Proof.
  destruct (max_Fin 0 q) as (r & -> & Hr1 & Hr2 & Hr).
  exists r. split; [reflexivity|].
  destruct (Qlt_le_dec q 0) as [H|H].
  - left. split; [lra|]. destruct Hr as [-> | ->]; lra.
  - right. split; [lra|]. destruct Hr as [-> | ->]; lra.
Qed.

(** Raising the deductible never raises a risk value of a profile that is
    within its bounds. *)
Theorem raising_deductible_never_raises_risk (customer : Server.twin)
    (changeJson : Server.change) (d : Q) :
  Spec.finite_twin customer -> Spec.within_bounds customer ->
  Server.truthy_str (Server.move_state changeJson) = false ->
  Server.increase_deductible changeJson = Num (Fin d) ->
  (0 < d <= 10000)%Q ->
  let updated := Server.impactedTwin customer changeJson in
  (Server.base_risk_score updated <=? Server.base_risk_score customer)%js = true
  /\ (Server.next12m_claim_prob updated
      <=? Server.next12m_claim_prob customer)%js = true
  /\ (Server.next12m_expected_loss updated
      <=? Server.next12m_expected_loss customer)%js = true.
Proof.
  intros (Fa & Fb & Fc) (Ba & Bb & Bc) Hmove Hinc Hd updated.
  destruct (bounds_Fin _ _ _ Fa Ba) as (a & Ea & La & Ua).
  destruct (bounds_Fin _ _ _ Fb Bb) as (b & Eb & Lb & Ub).
  apply isFinite_Fin in Fc. destruct Fc as [c Ec].
  rewrite Ec in Bc. cbn [JS.le] in Bc. apply Qle_bool_iff in Bc.
  specialize (La _ eq_refl). specialize (Ua _ eq_refl).
  specialize (Lb _ eq_refl). specialize (Ub _ eq_refl).
  subst updated. unfold Server.impactedTwin, Server.scaledValues,
    Server.deductibleImpactFactor, Server.deductibleChange, JS.or_else.
  rewrite Hmove, Hinc, Ea, Eb, Ec.
  assert (Ht : JS.truthy_val (Num (Fin d)) = true).
  { cbn. apply negb_true_iff, Qzerob_false. lra. }
  rewrite ?Ht. cbv beta iota zeta. rewrite ?Ht. cbv beta iota zeta.
  cbn [JS.to_number JS.mul JS.sub JS.neg JS.add
       Server.base_risk_score Server.next12m_claim_prob
       Server.next12m_expected_loss].
  set (f := (1 + - (d * 0.0001))%Q).
  assert (Hf : (0 <= f)%Q /\ (f <= 1)%Q) by (unfold f; lra).
  assert (Ha : (a * f <= a)%Q) by nra.
  assert (Hb : (b * f <= b)%Q) by nra.
  assert (Hc : (c * f <= c)%Q) by nra.
  assert (Ha0 : (0 <= a * f)%Q) by (apply Qmult_le_0_compat; lra).
  assert (Hb0 : (0 <= b * f)%Q) by (apply Qmult_le_0_compat; lra).
  assert (Hc0 : (0 <= c * f)%Q) by (apply Qmult_le_0_compat; lra).
  destruct (clamp_cases 0 100 (a * f)) as (ra & -> & Ca); [lra|].
  destruct (clamp_cases 0 1 (b * f)) as (rb & -> & Cb); [lra|].
  destruct (floor_cases (c * f)) as (rc & -> & Cc).
  cbn [JS.le]. repeat split; apply Qle_bool_iff.
  - destruct Ca as [[? ->] | [[? ?] | (? & ? & ?)]]; lra.
  - destruct Cb as [[? ->] | [[? ?] | (? & ? & ?)]]; lra.
  - destruct Cc as [[? ?] | [? ?]]; lra.
Qed.

Lemma raising_deductible_never_raises_risk_witness :
  let changeJson := Server.mkChange false None (Num (Fin 500)) Undefined
                                    Undefined Undefined Undefined in
  let updated := Server.impactedTwin Examples.florida changeJson in
  (Server.base_risk_score updated <=? Server.base_risk_score Examples.florida)%js = true
  /\ (Server.next12m_claim_prob updated
      <=? Server.next12m_claim_prob Examples.florida)%js = true
  /\ (Server.next12m_expected_loss updated
      <=? Server.next12m_expected_loss Examples.florida)%js = true.
Proof.
  apply (raising_deductible_never_raises_risk Examples.florida
           (Server.mkChange false None (Num (Fin 500)) Undefined
                            Undefined Undefined Undefined) 500).
  - repeat split; reflexivity.
  - repeat split; reflexivity.
  - reflexivity.
  - reflexivity.
  - split; [reflexivity | discriminate].
Defined.

(** Lowering the deductible never lowers a risk value of a profile that is
    within its bounds. *)
Theorem lowering_deductible_never_lowers_risk (customer : Server.twin)
    (changeJson : Server.change) (d : Q) :
  Spec.finite_twin customer -> Spec.within_bounds customer ->
  Server.truthy_str (Server.move_state changeJson) = false ->
  JS.truthy_val (Server.increase_deductible changeJson) = false ->
  Server.decrease_deductible changeJson = Num (Fin d) ->
  (0 < d)%Q ->
  let updated := Server.impactedTwin customer changeJson in
  (Server.base_risk_score customer <=? Server.base_risk_score updated)%js = true
  /\ (Server.next12m_claim_prob customer
      <=? Server.next12m_claim_prob updated)%js = true
  /\ (Server.next12m_expected_loss customer
      <=? Server.next12m_expected_loss updated)%js = true.
Proof.
  intros (Fa & Fb & Fc) (Ba & Bb & Bc) Hmove Hinc Hdec Hd updated.
  destruct (bounds_Fin _ _ _ Fa Ba) as (a & Ea & La & Ua).
  destruct (bounds_Fin _ _ _ Fb Bb) as (b & Eb & Lb & Ub).
  apply isFinite_Fin in Fc. destruct Fc as [c Ec].
  rewrite Ec in Bc. cbn [JS.le] in Bc. apply Qle_bool_iff in Bc.
  specialize (La _ eq_refl). specialize (Ua _ eq_refl).
  specialize (Lb _ eq_refl). specialize (Ub _ eq_refl).
  subst updated. unfold Server.impactedTwin, Server.scaledValues,
    Server.deductibleImpactFactor, Server.deductibleChange, JS.or_else.
  rewrite Hmove, Hinc, Hdec, Ea, Eb, Ec.
  assert (Ht : JS.truthy_val (Num (Fin d)) = true).
  { cbn. apply negb_true_iff, Qzerob_false. lra. }
  rewrite ?Ht. cbv beta iota zeta. rewrite ?Ht. cbv beta iota zeta.
  cbn [JS.to_number JS.mul JS.sub JS.neg JS.add
       Server.base_risk_score Server.next12m_claim_prob
       Server.next12m_expected_loss].
  set (f := (1 + - (- d * 0.0001))%Q).
  assert (Hf : (1 <= f)%Q) by (unfold f; lra).
  assert (Ha : (a <= a * f)%Q) by nra.
  assert (Hb : (b <= b * f)%Q) by nra.
  assert (Hc : (c <= c * f)%Q) by nra.
  destruct (clamp_cases 0 100 (a * f)) as (ra & -> & Ca); [lra|].
  destruct (clamp_cases 0 1 (b * f)) as (rb & -> & Cb); [lra|].
  destruct (floor_cases (c * f)) as (rc & -> & Cc).
  cbn [JS.le]. repeat split; apply Qle_bool_iff.
  - destruct Ca as [[? ->] | [[? ?] | (? & ? & ?)]]; lra.
  - destruct Cb as [[? ->] | [[? ?] | (? & ? & ?)]]; lra.
  - destruct Cc as [[? ?] | [? ?]]; lra.
Qed.

Lemma lowering_deductible_never_lowers_risk_witness :
  let changeJson := Server.mkChange false None Undefined (Num (Fin 500))
                                    Undefined Undefined Undefined in
  let updated := Server.impactedTwin Examples.florida changeJson in
  (Server.base_risk_score Examples.florida <=? Server.base_risk_score updated)%js = true
  /\ (Server.next12m_claim_prob Examples.florida
      <=? Server.next12m_claim_prob updated)%js = true
  /\ (Server.next12m_expected_loss Examples.florida
      <=? Server.next12m_expected_loss updated)%js = true.
Proof.
  apply (lowering_deductible_never_lowers_risk Examples.florida
           (Server.mkChange false None Undefined (Num (Fin 500))
                            Undefined Undefined Undefined) 500).
  - repeat split; reflexivity.
  - repeat split; reflexivity.
  - reflexivity.
  - reflexivity.
  - reflexivity.
  - reflexivity.
Defined.

(** ** Further properties of the forecasts *)



Lemma classic_in (x : string) (l : list string) : In x l \/ ~ In x l.
Proof. destruct (in_dec string_dec x l); auto. Qed.


Lemma models_known (modelType : string) :
  models !! modelType = None
  <-> ~ In modelType ["linear_regression"; "exponential_smoothing"; "arima";
                      "ensemble"].
Proof.
  unfold models. rewrite <- not_elem_of_list_to_map.
  cbn [fmap list_fmap fst]. rewrite list_elem_of_In. reflexivity.
Qed.

Lemma models_own (modelType : string) :
  In modelType ["linear_regression"; "exponential_smoothing"; "arima";
                "ensemble"] ->
  JS.own_only modelType = true.
Proof.
  cbn [In]. intros H.
  repeat (destruct H as [<- | H]; [reflexivity|]). contradiction.
Qed.



Lemma times_NaN (x : num) : (x * NaN)%js = NaN.
Proof. destruct x; reflexivity. Qed.

(** [predictRiskTrend] falls back to the linear model for an unknown model
    type, and then fails on the confidence intervals: it returns no result
    exactly when the model type is none of the four known ones and no
    property that every object inherits; for an inherited name it returns a
    result whose confidence bounds are all [NaN]. *)
Theorem unknown_model_type_throws (currentRisk : num)
    (historicalData : list point) (horizon modelType : string) :
  (predictRiskTrend currentRisk historicalData horizon modelType = None
   <-> ~ In modelType ["linear_regression"; "exponential_smoothing"; "arima";
                       "ensemble"]
       /\ JS.own_only modelType = true)
  /\ (JS.own_only modelType = false ->
      exists r,
        predictRiskTrend currentRisk historicalData horizon modelType = Some r
        /\ Forall (fun iv => lower_bound iv = NaN /\ upper_bound iv = NaN)
                  (confidence_intervals r)).
Proof.
  unfold predictRiskTrend, calculateConfidenceIntervals, JS.get.
  destruct (models !! modelType) as [m|] eqn:E.
  - assert (Hin : In modelType ["linear_regression"; "exponential_smoothing";
                                "arima"; "ensemble"]).
    { destruct (classic_in modelType
                  ["linear_regression"; "exponential_smoothing"; "arima";
                   "ensemble"]) as [H | H]; [exact H|].
      apply models_known in H. congruence. }
    pose proof (models_own modelType Hin) as Hown.
    split.
    + split; [discriminate|]. intros [Hnot _]. contradiction.
    + intros H. congruence.
  - apply models_known in E.
    destruct (JS.own_only modelType) eqn:Hown.
    + split; [|discriminate]. split; [auto | reflexivity].
    + split.
      * split; [discriminate|]. intros [_ H]. discriminate.
      * intros _. eexists. split; [reflexivity|].
        cbn [confidence_intervals]. apply List.Forall_forall.
        intros iv Hiv. apply List.in_map_iff in Hiv. destruct Hiv as (pred & <- & _).
        cbn [lower_bound upper_bound JS.to_number JS.sub JS.neg JS.add JS.mul].
        rewrite times_NaN. auto.
Qed.

Lemma flat_change_is_small (x : num) :
  (((x - x) / x) * Fin 100 >? Fin 5)%js = false
  /\ (((x - x) / x) * Fin 100 <? - Fin 5)%js = false.
Proof.
  destruct x as [q| | |]; try (split; reflexivity).
  cbn [JS.sub JS.neg JS.add JS.div].
  assert (Hz : JS.Qzerob (q + - q) = true) by (apply Qzerob_true; ring).
  destruct (JS.Qzerob q) eqn:E.
  - rewrite Hz. split; reflexivity.
  - apply Qzerob_false in E. cbn [JS.mul JS.gt JS.lt JS.neg].
    assert (H0 : ((q + - q) / q * 100 == 0)%Q) by (field; assumption).
    split; apply Qltb_false; lra.
Qed.

(** The exponential smoothing forecast is flat, so its trend is "stable"
    on every input. *)
Theorem smoothing_trend_is_stable (historicalData : list point)
    (currentRisk : num) (timeSteps : nat) :
  (exists value,
     map predicted_risk
         (exponentialSmoothingForecast historicalData currentRisk timeSteps)
     = repeat value timeSteps)
  /\ calculateTrendDirection
       (exponentialSmoothingForecast historicalData currentRisk timeSteps)
     = "stable".
Proof.
  unfold exponentialSmoothingForecast.
  set (s := JS.parseFloat_toFixed 1 _).
  set (f := fun i : nat => _).
  split.
  - exists s. unfold array_from. rewrite map_map. subst f. cbn [predicted_risk].
    generalize 0%nat. induction timeSteps as [|n IH]; intros a; [reflexivity|].
    cbn [seq map repeat]. f_equal. apply IH.
  - unfold calculateTrendDirection. rewrite length_array_from.
    destruct (timeSteps <? 2)%nat eqn:E; [reflexivity|].
    apply Nat.ltb_ge in E.
    rewrite !at_index_array_from by lia. subst f. cbn [predicted_risk].
    destruct (flat_change_is_small s) as [-> ->]. reflexivity.
Qed.

(** ** Claim probabilities, intervals, scenarios and the return on investment *)

(** The claim probability derived from a risk score that is a number lies
    between 0.01 and 0.95, whatever the score, infinite ones included. *)
Theorem claim_probability_bounds (riskScore : num) :
  JS.isNaN riskScore = false ->
  Spec.between (Fin 0.01) (riskToClaimProbability riskScore) (Fin 0.95).
Proof.
  intros H. unfold riskToClaimProbability.
  destruct riskScore as [q| | |]; try discriminate.
  - cbn [JS.div]. rewrite (proj2 (Qzerob_false 100)) by discriminate.
    cbn [JS.mul].
    destruct (max_Fin 0.01 (q / 100 * 0.8)) as (m & -> & Hm & _).
    destruct (min_Fin 0.95 m) as (r & -> & Hr1 & Hr2 & Hr).
    apply between_Fin; [|assumption].
    destruct Hr as [-> | ->]; lra.
  - vm_compute. split; reflexivity.
  - vm_compute. split; reflexivity.
Qed.

Lemma claim_probability_bounds_witness :
  Spec.between (Fin 0.01) (riskToClaimProbability (Fin 250)) (Fin 0.95).
Proof. apply (claim_probability_bounds (Fin 250)). reflexivity. Defined.

Lemma models_thresholds (modelType : string) (m : model) :
  models !! modelType = Some m ->
  exists t, confidence_threshold m = Fin t /\ (0 < t)%Q /\ (t <= 1)%Q.
Proof.
  intros H. unfold models in H.
  apply elem_of_list_to_map_2, list_elem_of_In in H. cbn [In] in H.
  repeat (destruct H as [H | H];
          [injection H as _ <-; eexists; split; [reflexivity|]; split;
           [reflexivity | discriminate]|]).
  contradiction.
Qed.

(** For a known model type every confidence interval brackets its finite,
    non-negative prediction.  (A model type that names a property every
    object inherits also gives intervals, with bounds that are [NaN].) *)
Theorem confidence_intervals_bracket (predictions : list prediction)
    (modelType : string) (intervals : list interval) :
  JS.own_only modelType = true ->
  calculateConfidenceIntervals predictions modelType = Some intervals ->
  Forall (fun p => exists q, predicted_risk p = Fin q /\ (0 <= q)%Q) predictions ->
  Forall2 (fun p iv =>
             interval_period iv = period p
             /\ Spec.between (lower_bound iv) (predicted_risk p) (upper_bound iv))
          predictions intervals.
Proof.
  intros Hown. unfold calculateConfidenceIntervals.
  rewrite get_own_only by assumption.
  destruct (models !! modelType) as [m|] eqn:E; [|discriminate].
  destruct (models_thresholds _ _ E) as (t & -> & Ht0 & Ht1).
  intros H Hall. injection H as <-.
  induction Hall as [|p l (q & Hq & Hq0) Hl IH]; [constructor|].
  cbn [map]. constructor; [|exact IH].
  cbn [interval_period lower_bound upper_bound]. split; [reflexivity|].
  rewrite Hq. cbn [JS.sub JS.neg JS.add JS.mul].
  apply between_Fin; nra.
Qed.

Lemma confidence_intervals_bracket_witness :
  exists intervals,
    calculateConfidenceIntervals (arimaForecast Examples.rising_by_two (Fin 64) 3) "arima"
    = Some intervals
    /\ Forall2 (fun p iv =>
             interval_period iv = period p
             /\ Spec.between (lower_bound iv) (predicted_risk p) (upper_bound iv))
          (arimaForecast Examples.rising_by_two (Fin 64) 3) intervals.
Proof.
  eexists. split; [vm_compute; reflexivity|].
  apply (confidence_intervals_bracket _ "arima").
  - reflexivity.
  - vm_compute. reflexivity.
  - repeat constructor; eexists; (split; [vm_compute; reflexivity | discriminate]).
Defined.

(** Each of the three scenarios keeps every adjusted prediction in [0, 100]
    and never raises a confidence. *)
Theorem scenario_predictions_bounded (sc : scenario)
    (basePredictions : list prediction) :
  In sc scenarios ->
  Forall (fun p => JS.isFinite (predicted_risk p) = true
                   /\ exists c, confidence p = Fin c /\ (0 <= c)%Q)
         basePredictions ->
  Forall2 (fun p adjusted =>
             period adjusted = period p
             /\ Spec.between (Fin 0) (predicted_risk adjusted) (Fin 100)
             /\ Spec.between (Fin 0) (confidence adjusted) (confidence p))
          basePredictions (adjustedPredictions sc basePredictions).
Proof.
  intros Hsc Hall.
  assert (Hp : exists pr adj, probability sc = Fin pr /\ (0 <= pr)%Q /\ (pr <= 1)%Q
                              /\ risk_adjustment sc = Fin adj).
  { cbn [scenarios In] in Hsc.
    destruct Hsc as [<- | [<- | [<- | []]]]; eexists; eexists;
      (split; [reflexivity|]); (split; [discriminate|]);
      (split; [discriminate | reflexivity]). }
  destruct Hp as (pr & adj & Epr & Hpr0 & Hpr1 & Eadj).
  unfold adjustedPredictions. rewrite Epr, Eadj.
  induction Hall as [|p l (Hfin & c & Hc & Hc0) Hl IH]; [constructor|].
  cbn [map]. constructor; [|exact IH].
  cbn [period predicted_risk confidence]. split; [reflexivity|].
  apply isFinite_Fin in Hfin. destruct Hfin as [q ->]. rewrite Hc.
  cbn [JS.add JS.mul].
  destruct (clamp_Fin 0 100 (q * (1 + adj))) as (r & Hr & Hr0 & Hr1); [lra|].
  unfold Spec.clamp in Hr. rewrite Hr.
  split; apply between_Fin; try assumption.
  - apply Qmult_le_0_compat; assumption.
  - nra.
Qed.

Lemma scenario_predictions_bounded_witness :
  let base := arimaForecast Examples.rising_by_two (Fin 64) 3 in
  let worst := mkScenarioCase "Worst Case Scenario" (Fin 0.15) (Fin 0.35) in
  Forall2 (fun p adjusted =>
             period adjusted = period p
             /\ Spec.between (Fin 0) (predicted_risk adjusted) (Fin 100)
             /\ Spec.between (Fin 0) (confidence adjusted) (confidence p))
          base (adjustedPredictions worst base).
Proof.
  apply (scenario_predictions_bounded
           (mkScenarioCase "Worst Case Scenario" (Fin 0.15) (Fin 0.35))
           (arimaForecast Examples.rising_by_two (Fin 64) 3)).
  - right. right. left. reflexivity.
  - repeat constructor;
      eexists; (split; [vm_compute; reflexivity | discriminate]).
Defined.

(** The return on investment of finite savings and costs is never [NaN]:
    without costs it is [Infinity] for positive savings and 0 otherwise. *)
Theorem roi_is_never_NaN (savings costs : num) :
  JS.isFinite savings = true -> JS.isFinite costs = true ->
  JS.isNaN (calculateROI savings costs) = false
  /\ ((costs === Fin 0)%js = true ->
      calculateROI savings costs
      = if (savings >? Fin 0)%js then PInf else Fin 0).
Proof.
  intros Hs Hc. apply isFinite_Fin in Hs, Hc.
  destruct Hs as [s ->], Hc as [c ->]. unfold calculateROI.
  destruct (Fin c === Fin 0)%js eqn:E.
  - split; [|reflexivity]. destruct (Fin s >? Fin 0)%js; reflexivity.
  - split; [|discriminate]. cbn [JS.strict_eq] in E.
    cbn [JS.sub JS.neg JS.add JS.div]. unfold JS.Qzerob. rewrite E. reflexivity.
Qed.

Lemma roi_is_never_NaN_witness :
  JS.isNaN (calculateROI (Fin 120) (Fin 0)) = false
  /\ ((Fin 0 === Fin 0)%js = true ->
      calculateROI (Fin 120) (Fin 0)
      = if (Fin 120 >? Fin 0)%js then PInf else Fin 0).
Proof. apply (roi_is_never_NaN (Fin 120) (Fin 0)); reflexivity. Defined.

(** ** Predictions of scores stay scores *)






(** ** Further properties of the risk recalculation *)

Lemma temporal_adjustment_range (env : MLRiskService.environment) :
  exists q, MLRiskService.getTemporalAdjustment env = Fin q
            /\ (0 <= q)%Q /\ (q <= 3)%Q.
Proof.
  unfold MLRiskService.getTemporalAdjustment.
  destruct (((7 <=? MLRiskService.hour env) && (MLRiskService.hour env <=? 9)
             || (17 <=? MLRiskService.hour env) && (MLRiskService.hour env <=? 19))%Z)
    eqn:Erush;
  destruct (((MLRiskService.dayOfWeek env =? 0) || (MLRiskService.dayOfWeek env =? 6))%Z);
  destruct (((22 <=? MLRiskService.hour env) || (MLRiskService.hour env <=? 5))%Z)
    eqn:Enight;
  cbn [JS.add]; try (eexists; split; [reflexivity|]; split; [discriminate | discriminate]).
  all: exfalso; lia.
Qed.

(** The temporal adjustment is one of 0, 1, 1.5, 2, 2.5 and 3: rush hour and
    night never add up. *)
Theorem temporal_adjustment_bounds (env : MLRiskService.environment) :
  exists q, MLRiskService.getTemporalAdjustment env = Fin q
            /\ (0 <= q)%Q /\ (q <= 3)%Q.
Proof. exact (temporal_adjustment_range env). Qed.

Lemma stateRates_low (k : string) (v : num) :
  MLRiskService.stateRates !! k = Some v ->
  exists q, v = Fin q /\ (0 < q)%Q /\ (q <= 0.047)%Q.
Proof.
  intros H. unfold MLRiskService.stateRates in H.
  apply elem_of_list_to_map_2, list_elem_of_In in H. cbn [In] in H.
  repeat (destruct H as [H | H];
          [injection H as _ <-; eexists; split; [reflexivity|]; split;
           [reflexivity | discriminate]|]).
  contradiction.
Qed.

Lemma unemployment_low (state : string) :
  (MLRiskService.getStateUnemployment state >? Fin 0.06)%js = false.
Proof.
  unfold MLRiskService.getStateUnemployment, JS.lookup_or, JS.get.
  destruct (MLRiskService.stateRates !! state) as [v|] eqn:E.
  - destruct (stateRates_low _ _ E) as (q & -> & H0 & H1).
    cbn [JS.truthy]. rewrite (proj2 (Qzerob_false q)) by lra. cbn [negb].
    unfold JS.gt, JS.lt. apply Qltb_false. lra.
  - destruct (JS.own_only state); reflexivity.
Qed.

(** With the unemployment rates the service itself supplies (none above
    4.7%), the economic contribution of a recalculation is always 0. *)
Theorem economic_contribution_is_zero (customer : MLRiskService.customerData)
    (month : Z) (r : MLRiskService.draws) (env : MLRiskService.environment) :
  MLRiskService.economic
    (MLRiskService.factors (MLRiskService.recalculateRisk customer month r env))
  = Fin 0.
Proof.
  unfold MLRiskService.recalculateRisk, MLRiskService.calculateRiskScore,
    MLRiskService.calculateAdjustments, MLRiskService.getExternalFactors.
  cbn [MLRiskService.factors MLRiskService.economic MLRiskService.unemployment_rate].
  rewrite (unemployment_low (MLRiskService.state customer)). reflexivity.
Qed.

Lemma toFixed1_between (lo hi q : Q) :
  (JS.toFixedQ 1 lo == lo)%Q -> (JS.toFixedQ 1 hi == hi)%Q ->
  (lo <= q)%Q -> (q <= hi)%Q ->
  (lo <= JS.toFixedQ 1 q)%Q /\ (JS.toFixedQ 1 q <= hi)%Q.
Proof.
  intros Elo Ehi H0 H1.
  pose proof (toFixedQ_mono 1 _ _ H0). pose proof (toFixedQ_mono 1 _ _ H1). lra.
Qed.

(** A recalculation with draws in [0, 1) reports an adjustment between -1.1
    and 8.8 and a new score in [0, 100], for any finite base score. *)
Theorem recalculation_shift_bounded (customer : MLRiskService.customerData)
    (month : Z) (env : MLRiskService.environment) (w t m base : Q) :
  MLRiskService.base_risk_score customer = Num (Fin base) ->
  (0 <= w < 1)%Q -> (0 <= t < 1)%Q -> (0 <= m < 1)%Q ->
  let result :=
    MLRiskService.recalculateRisk customer month
      (MLRiskService.mkDraws (Fin w) (Fin t) (Fin m)) env in
  Spec.between (Fin (-1.1)) (MLRiskService.adjustment result) (Fin 8.8)
  /\ Spec.between (Fin 0) (MLRiskService.new_score result) (Fin 100).
Proof.
  intros Hbase Hw Ht Hm result. subst result.
  unfold MLRiskService.recalculateRisk, MLRiskService.calculateRiskScore,
    MLRiskService.totalAdjustment, MLRiskService.calculateAdjustments,
    MLRiskService.getExternalFactors.
  cbn [MLRiskService.adjustment MLRiskService.new_score
       MLRiskService.weather MLRiskService.economic MLRiskService.traffic
       MLRiskService.market MLRiskService.temporal
       MLRiskService.severe_weather_probability MLRiskService.hurricane_season
       MLRiskService.unemployment_rate MLRiskService.accident_rate_increase
       MLRiskService.claims_frequency_trend
       MLRiskService.weather_draw MLRiskService.traffic_draw
       MLRiskService.market_draw fold_left].
  rewrite Hbase. cbn [JS.parseFloat].
  rewrite (unemployment_low (MLRiskService.state customer)).
  destruct (temporal_adjustment_range env) as (tm & -> & Htm0 & Htm1).
  cbn [JS.mul JS.sub JS.neg JS.add].
  cbv beta iota zeta.
  repeat match goal with
         | |- context [if ?b then _ else _] => destruct b
         end;
    cbn [JS.mul JS.sub JS.neg JS.add JS.parseFloat_toFixed];
    (split;
     [apply between_Fin;
      apply (toFixed1_between (-1.1) 8.8); try (vm_compute; reflexivity); lra
     |]);
    match goal with
    | |- context [Math.min (Fin 100) (Fin ?x)] =>
        destruct (clamp_Fin 0 100 x) as (r & Hr & Hr0 & Hr1); [lra|];
        unfold Spec.clamp in Hr; rewrite Hr
    end;
    cbn [JS.parseFloat_toFixed];
    apply between_Fin;
    apply (toFixed1_between 0 100); try (vm_compute; reflexivity); lra.
Qed.

Lemma recalculation_shift_bounded_witness :
  let result :=
    MLRiskService.recalculateRisk Examples.ohio_customer 8
      (MLRiskService.mkDraws (Fin 0.9) (Fin 0.5) (Fin 0.5)) Examples.quiet_noon in
  Spec.between (Fin (-1.1)) (MLRiskService.adjustment result) (Fin 8.8)
  /\ Spec.between (Fin 0) (MLRiskService.new_score result) (Fin 100).
Proof.
  apply (recalculation_shift_bounded Examples.ohio_customer 8 Examples.quiet_noon
           0.9 0.5 0.5 50).
  - reflexivity.
  - split; [discriminate | reflexivity].
  - split; [discriminate | reflexivity].
  - split; [discriminate | reflexivity].
Defined.

(** ** Risk tiers and cohort parameters *)

(** The level of a score in [0, 100] names the tier of [riskTiers] whose
    range holds it (the top tier includes 100); a score that is [NaN] is
    reported as "LOW". *)
Theorem risk_level_matches_tiers (q : Q) :
  (0 <= q)%Q -> (q <= 100)%Q ->
  exists lo hi,
    PortfolioAnalyticsService.riskTiers
      !! PortfolioAnalyticsService.getRiskLevel (Fin q)
    = Some (PortfolioAnalyticsService.mkTier (Fin lo) (Fin hi))
    /\ (lo <= q)%Q /\ ((q < hi)%Q \/ (q == 100)%Q)
    /\ PortfolioAnalyticsService.getRiskLevel NaN = "LOW".
Proof.
  intros H0 H1. unfold PortfolioAnalyticsService.getRiskLevel, JS.ge, JS.le.
  destruct (Qle_bool 85 q) eqn:E1.
  - apply Qle_bool_iff in E1. exists 85%Q, 100%Q.
    split; [vm_compute; reflexivity|]. split; [assumption|].
    split; [|reflexivity].
    destruct (Qlt_le_dec q 100); [left; assumption | right; lra].
  - apply Qle_bool_false in E1. destruct (Qle_bool 70 q) eqn:E2.
    + apply Qle_bool_iff in E2. exists 70%Q, 85%Q.
      split; [vm_compute; reflexivity|]. auto.
    + apply Qle_bool_false in E2. destruct (Qle_bool 40 q) eqn:E3.
      * apply Qle_bool_iff in E3. exists 40%Q, 70%Q.
        split; [vm_compute; reflexivity|]. auto.
      * apply Qle_bool_false in E3. exists 0%Q, 40%Q.
        split; [vm_compute; reflexivity|]. auto.
Qed.

Lemma risk_level_matches_tiers_witness :
  exists lo hi,
    PortfolioAnalyticsService.riskTiers
      !! PortfolioAnalyticsService.getRiskLevel (Fin 78.5)
    = Some (PortfolioAnalyticsService.mkTier (Fin lo) (Fin hi))
    /\ (lo <= 78.5)%Q /\ ((78.5 < hi)%Q \/ (78.5 == 100)%Q)
    /\ PortfolioAnalyticsService.getRiskLevel NaN = "LOW".
Proof.
  apply (risk_level_matches_tiers 78.5); discriminate.
Defined.

Lemma existsb_eqb_In (x : string) (xs : list string) :
  existsb (String.eqb x) xs = true -> In x xs.
Proof.
  intros H. apply existsb_exists in H. destruct H as (y & Hy & E).
  apply String.eqb_eq in E. subst. assumption.
Qed.

(** Accepted cohort parameters are always among the valid analysis types and
    time frames, the defaults included. *)
Theorem cohort_params_valid (type timeFrame : option string)
    (t f : string) :
  Server.validateCohortParams type timeFrame = inr (t, f) ->
  In t Server.validTypes /\ In f Server.validTimeFrames.
Proof.
  unfold Server.validateCohortParams.
  destruct (Server.truthy_str type) eqn:Et; cbn [andb].
  - destruct (existsb _ Server.validTypes) eqn:E1; cbn [negb]; [|discriminate].
    destruct (Server.truthy_str timeFrame) eqn:Ef; cbn [andb].
    + destruct (existsb _ Server.validTimeFrames) eqn:E2; cbn [negb]; [|discriminate].
      intros H. injection H as <- <-. split; apply existsb_eqb_In; assumption.
    + intros H. injection H as <- <-. split; [apply existsb_eqb_In; assumption|].
      cbn. auto.
  - destruct (Server.truthy_str timeFrame) eqn:Ef; cbn [andb].
    + destruct (existsb _ Server.validTimeFrames) eqn:E2; cbn [negb]; [|discriminate].
      intros H. injection H as <- <-. split; [cbn; auto|].
      apply existsb_eqb_In; assumption.
    + intros H. injection H as <- <-. split; cbn; auto.
Qed.

Lemma cohort_params_valid_witness :
  In "geographic" Server.validTypes /\ In "90d" Server.validTimeFrames.
Proof.
  apply (cohort_params_valid (Some "geographic") None "geographic" "90d").
  reflexivity.
Defined.
